(** * The response builder and the renderers of aah (reply.go)

    A shallow embedding of [reply.go]: the [Reply] builder with its fluent
    methods, the render contract and the concrete renderers, and the
    [Data]-to-XML mapper.  Methods of a Go receiver type [T] are named
    [T_Method]; a method that mutates its receiver and returns it takes the
    receiver and gives back the receiver after the call. *)

From Stdlib Require Import ZArith Ascii String List Permutation Lia DecimalString.
From stdpp Require Import gmap strings list fin_maps.
Import ListNotations.

Local Open Scope string_scope.
Local Open Scope Z_scope.
Local Open Scope list_scope.

Set Warnings "-register-all".

(** ** Bytes and text *)

(** A Go [string] (and a [[]byte]) is a sequence of bytes: [string] here. *)

Definition byte_in (lo hi : nat) (c : ascii) : bool :=
  ((lo <=? nat_of_ascii c) && (nat_of_ascii c <=? hi))%nat.

Definition isLower (c : ascii) : bool := byte_in 97 122 c.
Definition isUpper (c : ascii) : bool := byte_in 65 90 c.
Definition isDigit (c : ascii) : bool := byte_in 48 57 c.

Definition toUpperByte (c : ascii) : ascii :=
  if isLower c then ascii_of_nat (nat_of_ascii c - 32) else c.
Definition toLowerByte (c : ascii) : ascii :=
  if isUpper c then ascii_of_nat (nat_of_ascii c + 32) else c.

Fixpoint mapBytes (f : ascii -> ascii) (s : string) : string :=
  match s with
  | EmptyString => EmptyString
  | String c s' => String (f c) (mapBytes f s')
  end.

Fixpoint allBytes (p : ascii -> bool) (s : string) : bool :=
  match s with
  | EmptyString => true
  | String c s' => p c && allBytes p s'
  end.

(** [c < utf8.RuneSelf] for every byte of [s]. *)
Definition isASCII (s : string) : bool :=
  allBytes (fun c => (nat_of_ascii c <? 128)%nat) s.

Fixpoint takeBytes (n : nat) (s : string) : string :=
  match n, s with
  | O, _ => EmptyString
  | S _, EmptyString => EmptyString
  | S n', String c s' => String c (takeBytes n' s')
  end.

(** ** Errors *)

(** Go's [error] values that reach this file: [errors.New] / [fmt.Errorf]
    messages, and the [*os.PathError] of a failed [os.Open]. *)
Inductive error : Type :=
| errorString (msg : string)
| PathError (Op Path : string) (Err : error).

Fixpoint error_Error (e : error) : string :=
  match e with
  | errorString msg => msg
  | PathError op p e' => op +:+ " " +:+ p +:+ ": " +:+ error_Error e'
  end.

(** ** The sink: [io.Writer] *)

(** An in-memory sink.  [limit = None] accepts everything; [limit = Some (k, e)]
    accepts [k] more bytes and then fails every longer write with [e], after
    taking the bytes that still fit.  Cutting a write into pieces leaves such a
    sink in the same state, so the chunking of [io.Copy] is not visible. *)
Record Writer : Type := mkWriter {
  written : string;
  limit : option (nat * error)
}.

Definition Writer_Write (w : Writer) (p : string) : Writer * option error :=
  match limit w with
  | None => (mkWriter (written w +:+ p) None, None)
  | Some (k, e) =>
      if (String.length p <=? k)%nat
      then (mkWriter (written w +:+ p) (Some ((k - String.length p)%nat, e)), None)
      else (mkWriter (written w +:+ takeBytes k p) (Some (O, e)), Some e)
  end.

(** ** The source: [io.Reader] *)

(** A reader yields [rd_bytes] and then ends with [io.EOF] ([rd_err = None])
    or with the read error [rd_err]. *)
Record Reader : Type := mkReader {
  rd_bytes : string;
  rd_err : option error
}.

(** [bytes.NewReader(b)] *)
Definition bytes_NewReader (b : string) : Reader := mkReader b None.

(** [io.Copy(w, r)]: everything read goes to [w]; a write error stops the
    copy, otherwise the read error (if any) is the result. *)
Definition io_Copy (w : Writer) (r : Reader) : Writer * option error :=
  match Writer_Write w (rd_bytes r) with
  | (w', Some e) => (w', Some e)
  | (w', None) => (w', rd_err r)
  end.

(** ** The file system seen through [os.Open] *)

Record FileInfo : Type := mkFileInfo { IsDir : bool }.

Record File : Type := mkFile {
  File_Stat : error + FileInfo;
  File_Reader : Reader
}.

(** [os.Open]: an open error, or the open file. *)
Definition FileSystem : Type := string -> error + File.

(** ** XML tokens ([encoding/xml]) *)

Record Name : Type := mkName { Space : string; Local : string }.
Record Attr : Type := mkAttr { Attr_Name : Name; Attr_Value : string }.
Record StartElement : Type := mkStart { Start_Name : Name; Start_Attr : list Attr }.

(** The tokens the mapper builds: [xml.StartElement], [xml.EndElement],
    [xml.CharData]. *)
Inductive Token : Type :=
| TStartElement (start : StartElement)
| TEndElement (name : Name)
| TCharData (data : string).

#[global] Instance Name_eq_dec : EqDecision Name.
Proof. solve_decision. Defined.

(** What [*xml.Encoder] offers to a [Marshaler]: [EncodeToken] and [Flush]. *)
Class XmlEncoder (E : Type) : Type := {
  EncodeToken : E -> Token -> E * option error;
  Flush : E -> E * option error
}.

(** ** What the Go runtime and the collaborating packages supply

    The dynamic values handlers pass as [interface{}], the standard encoders
    applied to them, the Unicode tables, [path/filepath], [html/template], and
    the gzip heuristic of [internal/util].  The builder and the renderers are
    written against this interface; [Ref.lib] further down is an instance
    that computes. *)
Class GoLib : Type := {
  (** a value of type [interface{}] *)
  any : Type;
  (** the dynamic type test "this value is an [aah.Data]" *)
  any_Data : any -> option (gmap string any);
  (** [fmt.Sprintf("%v", v)] *)
  fmt_Sprint_v : any -> string;
  (** [fmt.Sprintf(format, values...)] *)
  fmt_Sprintf : string -> list any -> string;
  (** [json.Marshal(v)] *)
  json_Marshal : any -> error + string;
  (** [xml.Marshal(v)] for a value that is not an [aah.Data] *)
  xml_marshalValue : any -> error + string;
  (** [escapeText(w, s, escapeNewline)] of the XML printer: the escaped form
      of [s], given the flag first *)
  xml_escapeText : bool -> string -> string;
  (** what the XML printer writes for one attribute of a start tag *)
  xml_attribute : Attr -> string;
  (** [strings.Map(unicode.ToLower, s)], taken for a string with a byte
      outside ASCII *)
  unicode_ToLower : string -> string;
  (** [strings.Title] on a string with a byte outside ASCII *)
  unicode_Title : string -> string;
  filepath_IsAbs : string -> bool;
  filepath_Join : string -> string -> string;
  (** [util.IsGzipWorthForFile] *)
  util_IsGzipWorthForFile : string -> bool;
  (** [*template.Template] with [Execute] and [ExecuteTemplate] *)
  Template : Type;
  Template_Execute : Template -> Writer -> gmap string any -> Writer * option error;
  Template_ExecuteTemplate :
    Template -> Writer -> string -> gmap string any -> Writer * option error
}.

(** [aah.Data], a [map[string]interface{}]. *)
Abbreviation Data := (gmap string any).

(** The order in which one run of [for k, v := range d] visits the entries
    of a map: Go leaves it open, every run picks one. *)
Definition RangeOrder `{GoLib} : Type := Data -> list (string * any).

Definition range_ok `{GoLib} (range : RangeOrder) : Prop :=
  forall d : Data, range d ≡ₚ map_to_list d.

(** ** [strings.ToLower], [strings.Title] *)

Section Strings.
Context `{GoLib}.

(** ASCII input is lowered byte by byte; anything else goes through the
    Unicode tables. *)
Definition strings_ToLower (s : string) : string :=
  if isASCII s then mapBytes toLowerByte s else unicode_ToLower s.

(** [isSeparator] on an ASCII byte: letters, digits and the underscore are
    not separators, every other byte is. *)
Definition isSeparator (c : ascii) : bool :=
  negb (isDigit c || isLower c || isUpper c
        || (nat_of_ascii c =? 95)%nat).

(** The closure of [strings.Title]: [prev] is the byte seen before. *)
Fixpoint titleFrom (prev : ascii) (s : string) : string :=
  match s with
  | EmptyString => EmptyString
  | String c s' =>
      String (if isSeparator prev then toUpperByte c else c) (titleFrom c s')
  end.

Definition strings_Title (s : string) : string :=
  if isASCII s then titleFrom " "%char s else unicode_Title s.
End Strings.

(** ** [net/http]: status codes and [http.Header] *)

Definition StatusOK : Z := 200.
Definition StatusCreated : Z := 201.
Definition StatusAccepted : Z := 202.
Definition StatusNoContent : Z := 204.
Definition StatusMovedPermanently : Z := 301.
Definition StatusFound : Z := 302.
Definition StatusTemporaryRedirect : Z := 307.
Definition StatusBadRequest : Z := 400.
Definition StatusUnauthorized : Z := 401.
Definition StatusForbidden : Z := 403.
Definition StatusNotFound : Z := 404.
Definition StatusMethodNotAllowed : Z := 405.
Definition StatusNotAcceptable : Z := 406.
Definition StatusConflict : Z := 409.
Definition StatusUnsupportedMediaType : Z := 415.
Definition StatusInternalServerError : Z := 500.
Definition StatusServiceUnavailable : Z := 503.

(** The token bytes of RFC 7230, [validHeaderFieldByte]. *)
Definition validHeaderFieldByte (c : ascii) : bool :=
  isDigit c || isLower c || isUpper c
  || existsb (fun n => (nat_of_ascii c =? n)%nat)
       [33; 35; 36; 37; 38; 39; 42; 43; 45; 46; 94; 95; 96; 124; 126]%nat.

Fixpoint canonicalFrom (upper : bool) (s : string) : string :=
  match s with
  | EmptyString => EmptyString
  | String c s' =>
      let c' := if upper then toUpperByte c else toLowerByte c in
      String c' (canonicalFrom (nat_of_ascii c' =? 45)%nat s')
  end.

(** [textproto.CanonicalMIMEHeaderKey]: a key with a byte that is not a token
    byte is left as it is. *)
Definition CanonicalMIMEHeaderKey (s : string) : string :=
  if allBytes validHeaderFieldByte s then canonicalFrom true s else s.

Definition Header_Set (h : gmap string (list string)) (key value : string)
  : gmap string (list string) :=
  <[CanonicalMIMEHeaderKey key := [value]]> h.

Definition Header_Add (h : gmap string (list string)) (key value : string)
  : gmap string (list string) :=
  let k := CanonicalMIMEHeaderKey key in
  <[k := default [] (h !! k) ++ [value]]> h.

Definition Header_Del (h : gmap string (list string)) (key : string)
  : gmap string (list string) :=
  delete (CanonicalMIMEHeaderKey key) h.

(** ** Constants of the [ahttp] package *)

Definition HeaderContentType : string := "Content-Type".
Definition HeaderContentDisposition : string := "Content-Disposition".

(** Modelled from the spec: the MIME strings [ahttp.ContentTypeJSON.String()]
    and its siblings return; package [ahttp] is not part of the sources. *)
Definition ContentTypeJSON : string := "application/json; charset=utf-8".
Definition ContentTypeJavascript : string := "application/javascript; charset=utf-8".
Definition ContentTypeXML : string := "application/xml; charset=utf-8".
Definition ContentTypePlainText : string := "text/plain; charset=utf-8".
Definition ContentTypeHTML : string := "text/html; charset=utf-8".

(** ** The request context the builder talks to *)

(** The part of [*Context] that [reply.go] reaches: the response headers
    [ctx.Res.Header()], the application's [BaseDir()] and the setting
    [SecureJSONPrefix].  Every [Reply] comes from [newReply] and owns its
    context, so the context is kept inside the builder's state. *)
Record Context : Type := mkContext {
  Res_Header : gmap string (list string);
  BaseDir : string;
  SecureJSONPrefix : string
}.

(** [http.Cookie], by name and value. *)
Record Cookie : Type := mkCookie { Cookie_Name : string; Cookie_Value : string }.

(** Modelled from the spec: the error-description object [*aah.Error] handed
    to the error-handling collaborator; its declaration is not part of the
    sources. *)
Record Error : Type := mkError { Error_Code : Z; Error_Message : string }.

Section Builder.
Context `{GoLib}.

(** *** The render contract and the renderer values *)

(** A value of interface type [Render]: one of the concrete renderers of
    this file, or a custom [RenderFunc]. *)
Inductive Render : Type :=
| RenderFunc (rf : Writer -> Writer * option error)
| textRender (Format : string) (Values : list any)
| jsonRender (data : any)
| jsonpRender (Callback : string) (data : any)
| secureJSONRender (Prefix : string) (data : any)
| xmlRender (data : any)
| binaryRender (Path : string) (Reader_ : option Reader)
| htmlRender (Template_ : option Template) (Layout Filename : string)
             (ViewArgs : Data).

(** *** Reply *)

Record Reply : Type := mkReply {
  Rdr : option Render;
  Code : Z;
  ContType : string;
  redirect : bool;
  done : bool;
  gzip : bool;
  path : string;
  ctx : Context;
  body : option string;
  cookies : option (list Cookie);
  err : option Error
}.

(** Field assignments [r.f = v]. *)
Definition set_Rdr (v : option Render) (r : Reply) : Reply :=
  mkReply v (Code r) (ContType r) (redirect r) (done r) (gzip r) (path r)
          (ctx r) (body r) (cookies r) (err r).
Definition set_Code (v : Z) (r : Reply) : Reply :=
  mkReply (Rdr r) v (ContType r) (redirect r) (done r) (gzip r) (path r)
          (ctx r) (body r) (cookies r) (err r).
Definition set_ContType (v : string) (r : Reply) : Reply :=
  mkReply (Rdr r) (Code r) v (redirect r) (done r) (gzip r) (path r)
          (ctx r) (body r) (cookies r) (err r).
Definition set_redirect (v : bool) (r : Reply) : Reply :=
  mkReply (Rdr r) (Code r) (ContType r) v (done r) (gzip r) (path r)
          (ctx r) (body r) (cookies r) (err r).
Definition set_done (v : bool) (r : Reply) : Reply :=
  mkReply (Rdr r) (Code r) (ContType r) (redirect r) v (gzip r) (path r)
          (ctx r) (body r) (cookies r) (err r).
Definition set_gzip (v : bool) (r : Reply) : Reply :=
  mkReply (Rdr r) (Code r) (ContType r) (redirect r) (done r) v (path r)
          (ctx r) (body r) (cookies r) (err r).
Definition set_path (v : string) (r : Reply) : Reply :=
  mkReply (Rdr r) (Code r) (ContType r) (redirect r) (done r) (gzip r) v
          (ctx r) (body r) (cookies r) (err r).
Definition set_cookies (v : option (list Cookie)) (r : Reply) : Reply :=
  mkReply (Rdr r) (Code r) (ContType r) (redirect r) (done r) (gzip r) (path r)
          (ctx r) (body r) v (err r).
Definition set_err (v : option Error) (r : Reply) : Reply :=
  mkReply (Rdr r) (Code r) (ContType r) (redirect r) (done r) (gzip r) (path r)
          (ctx r) (body r) (cookies r) v.
(** [r.ctx.Res.Header()] is a map the context shares: a change to it is a
    change of the context. *)
Definition set_Res_Header (h : gmap string (list string)) (r : Reply) : Reply :=
  mkReply (Rdr r) (Code r) (ContType r) (redirect r) (done r) (gzip r) (path r)
          (mkContext h (BaseDir (ctx r)) (SecureJSONPrefix (ctx r)))
          (body r) (cookies r) (err r).

(** *** HTTP status code *)

Definition Reply_Status (r : Reply) (code : Z) : Reply := set_Code code r.

Definition Reply_Ok (r : Reply) : Reply := Reply_Status r StatusOK.
Definition Reply_Created (r : Reply) : Reply := Reply_Status r StatusCreated.
Definition Reply_Accepted (r : Reply) : Reply := Reply_Status r StatusAccepted.
Definition Reply_NoContent (r : Reply) : Reply := Reply_Status r StatusNoContent.
Definition Reply_MovedPermanently (r : Reply) : Reply :=
  Reply_Status r StatusMovedPermanently.
Definition Reply_Found (r : Reply) : Reply := Reply_Status r StatusFound.
Definition Reply_TemporaryRedirect (r : Reply) : Reply :=
  Reply_Status r StatusTemporaryRedirect.
Definition Reply_BadRequest (r : Reply) : Reply := Reply_Status r StatusBadRequest.
Definition Reply_Unauthorized (r : Reply) : Reply :=
  Reply_Status r StatusUnauthorized.
Definition Reply_Forbidden (r : Reply) : Reply := Reply_Status r StatusForbidden.
Definition Reply_NotFound (r : Reply) : Reply := Reply_Status r StatusNotFound.
Definition Reply_MethodNotAllowed (r : Reply) : Reply :=
  Reply_Status r StatusMethodNotAllowed.
Definition Reply_NotAcceptable (r : Reply) : Reply :=
  Reply_Status r StatusNotAcceptable.
Definition Reply_Conflict (r : Reply) : Reply := Reply_Status r StatusConflict.
Definition Reply_UnsupportedMediaType (r : Reply) : Reply :=
  Reply_Status r StatusUnsupportedMediaType.
Definition Reply_InternalServerError (r : Reply) : Reply :=
  Reply_Status r StatusInternalServerError.
Definition Reply_ServiceUnavailable (r : Reply) : Reply :=
  Reply_Status r StatusServiceUnavailable.

(** *** Content types *)

Definition Reply_ContentType (r : Reply) (contentType : string) : Reply :=
  if (String.length (ContType r) =? 0)%nat
  then set_ContType (strings_ToLower contentType) r
  else r.

Definition Reply_Render (r : Reply) (rdr : option Render) : Reply :=
  set_Rdr rdr r.

Definition Reply_JSON (r : Reply) (data : any) : Reply :=
  let r := Reply_ContentType r ContentTypeJSON in
  Reply_Render r (Some (jsonRender data)).

Definition Reply_JSONSecure (r : Reply) (data : any) : Reply :=
  let r := Reply_ContentType r ContentTypeJSON in
  Reply_Render r (Some (secureJSONRender (SecureJSONPrefix (ctx r)) data)).

Definition Reply_JSONP (r : Reply) (data : any) (callback : string) : Reply :=
  let r := Reply_ContentType r ContentTypeJavascript in
  Reply_Render r (Some (jsonpRender callback data)).

Definition Reply_XML (r : Reply) (data : any) : Reply :=
  let r := Reply_ContentType r ContentTypeXML in
  Reply_Render r (Some (xmlRender data)).

Definition Reply_Text (r : Reply) (format : string) (values : list any) : Reply :=
  let r := Reply_ContentType r ContentTypePlainText in
  Reply_Render r (Some (textRender format values)).

Definition Reply_FromReader (r : Reply) (reader : option Reader) : Reply :=
  Reply_Render r (Some (binaryRender "" reader)).

Definition Reply_Binary (r : Reply) (b : string) : Reply :=
  Reply_FromReader r (Some (bytes_NewReader b)).

Definition Reply_File (r : Reply) (file : string) : Reply :=
  let file :=
    if negb (filepath_IsAbs file)
    then filepath_Join (BaseDir (ctx r)) file
    else file in
  let r := set_gzip (util_IsGzipWorthForFile file) r in
  Reply_Render r (Some (binaryRender file None)).

Definition Reply_HTMLlf (r : Reply) (layout filename : string) (data : Data)
  : Reply :=
  let r := Reply_ContentType r ContentTypeHTML in
  Reply_Render r (Some (htmlRender None layout filename data)).

Definition Reply_HTML (r : Reply) (data : Data) : Reply :=
  Reply_HTMLlf r "" "" data.
Definition Reply_HTMLl (r : Reply) (layout : string) (data : Data) : Reply :=
  Reply_HTMLlf r layout "" data.
Definition Reply_HTMLf (r : Reply) (filename : string) (data : Data) : Reply :=
  Reply_HTMLlf r "" filename data.

Definition Reply_RedirectWithStatus (r : Reply) (redirectURL : string) (code : Z)
  : Reply :=
  let r := set_redirect true r in
  let r := Reply_Status r code in
  set_path redirectURL r.

Definition Reply_Redirect (r : Reply) (redirectURL : string) : Reply :=
  Reply_RedirectWithStatus r redirectURL StatusFound.

Definition Reply_Error (r : Reply) (e : option Error) : Reply := set_err e r.

(** *** Headers, cookies, flags *)

Definition Reply_Header (r : Reply) (key value : string) : Reply :=
  if (String.length value =? 0)%nat then
    if String.eqb key HeaderContentType then Reply_ContentType r ""
    else set_Res_Header (Header_Del (Res_Header (ctx r)) key) r
  else
    if String.eqb key HeaderContentType then Reply_ContentType r value
    else set_Res_Header (Header_Set (Res_Header (ctx r)) key value) r.

Definition Reply_HeaderAppend (r : Reply) (key value : string) : Reply :=
  if String.eqb key HeaderContentType then Reply_ContentType r value
  else set_Res_Header (Header_Add (Res_Header (ctx r)) key value) r.

Definition Reply_FileDownload (r : Reply) (file targetName : string) : Reply :=
  let r := Reply_Header r HeaderContentDisposition
             ("attachment; filename=" +:+ targetName) in
  Reply_File r file.

Definition Reply_FileInline (r : Reply) (file targetName : string) : Reply :=
  let r := Reply_Header r HeaderContentDisposition
             ("inline; filename=" +:+ targetName) in
  Reply_File r file.

Definition Reply_Done (r : Reply) : Reply := set_done true r.

Definition Reply_Cookie (r : Reply) (cookie : Cookie) : Reply :=
  let r := match cookies r with
           | None => set_cookies (Some []) r
           | Some _ => r
           end in
  set_cookies (Some (default [] (cookies r) ++ [cookie])) r.

Definition Reply_DisableGzip (r : Reply) : Reply := set_gzip false r.

Definition Reply_IsContentTypeSet (r : Reply) : bool :=
  (0 <? String.length (ContType r))%nat.

Definition Reply_Body (r : Reply) : option string := body r.

Definition newReply (c : Context) : Reply :=
  mkReply None StatusOK "" false false true "" c None None None.
End Builder.

(** ** Sequences of builder calls *)

Section Calls.
Context `{GoLib}.

(** One call of a fluent method, with its arguments. *)
Inductive Call : Type :=
| CStatus (code : Z)
| COk | CCreated | CAccepted | CNoContent | CMovedPermanently | CFound
| CTemporaryRedirect | CBadRequest | CUnauthorized | CForbidden | CNotFound
| CMethodNotAllowed | CNotAcceptable | CConflict | CUnsupportedMediaType
| CInternalServerError | CServiceUnavailable
| CContentType (contentType : string)
| CJSON (data : any)
| CJSONSecure (data : any)
| CJSONP (data : any) (callback : string)
| CXML (data : any)
| CText (format : string) (values : list any)
| CBinary (b : string)
| CFromReader (reader : option Reader)
| CFile (file : string)
| CFileDownload (file targetName : string)
| CFileInline (file targetName : string)
| CHTML (data : Data)
| CHTMLl (layout : string) (data : Data)
| CHTMLf (filename : string) (data : Data)
| CHTMLlf (layout filename : string) (data : Data)
| CRedirect (redirectURL : string)
| CRedirectWithStatus (redirectURL : string) (code : Z)
| CError (e : option Error)
| CRender (rdr : option Render)
| CHeader (key value : string)
| CHeaderAppend (key value : string)
| CDone
| CCookie (cookie : Cookie)
| CDisableGzip.

Definition call (r : Reply) (c : Call) : Reply :=
  match c with
  | CStatus code => Reply_Status r code
  | COk => Reply_Ok r
  | CCreated => Reply_Created r
  | CAccepted => Reply_Accepted r
  | CNoContent => Reply_NoContent r
  | CMovedPermanently => Reply_MovedPermanently r
  | CFound => Reply_Found r
  | CTemporaryRedirect => Reply_TemporaryRedirect r
  | CBadRequest => Reply_BadRequest r
  | CUnauthorized => Reply_Unauthorized r
  | CForbidden => Reply_Forbidden r
  | CNotFound => Reply_NotFound r
  | CMethodNotAllowed => Reply_MethodNotAllowed r
  | CNotAcceptable => Reply_NotAcceptable r
  | CConflict => Reply_Conflict r
  | CUnsupportedMediaType => Reply_UnsupportedMediaType r
  | CInternalServerError => Reply_InternalServerError r
  | CServiceUnavailable => Reply_ServiceUnavailable r
  | CContentType ct => Reply_ContentType r ct
  | CJSON d => Reply_JSON r d
  | CJSONSecure d => Reply_JSONSecure r d
  | CJSONP d cb => Reply_JSONP r d cb
  | CXML d => Reply_XML r d
  | CText f vs => Reply_Text r f vs
  | CBinary b => Reply_Binary r b
  | CFromReader rd => Reply_FromReader r rd
  | CFile f => Reply_File r f
  | CFileDownload f n => Reply_FileDownload r f n
  | CFileInline f n => Reply_FileInline r f n
  | CHTML d => Reply_HTML r d
  | CHTMLl l d => Reply_HTMLl r l d
  | CHTMLf f d => Reply_HTMLf r f d
  | CHTMLlf l f d => Reply_HTMLlf r l f d
  | CRedirect u => Reply_Redirect r u
  | CRedirectWithStatus u code => Reply_RedirectWithStatus r u code
  | CError e => Reply_Error r e
  | CRender rdr => Reply_Render r rdr
  | CHeader k v => Reply_Header r k v
  | CHeaderAppend k v => Reply_HeaderAppend r k v
  | CDone => Reply_Done r
  | CCookie c => Reply_Cookie r c
  | CDisableGzip => Reply_DisableGzip r
  end.

(** A chain [r.A().B().C()]. *)
Definition calls (r : Reply) (cs : list Call) : Reply := fold_left call cs r.

(** The calls that go through [File]. *)
Definition isFileCall (c : Call) : bool :=
  match c with
  | CFile _ | CFileDownload _ _ | CFileInline _ _ => true
  | _ => false
  end.
End Calls.

(** ** The renderers *)

Section Renderers.
Context `{GoLib}.

(** [fmt.Fprintf(w, format, a...)] formats and hands the bytes to [w] in
    one [Write]. *)
Definition fmt_Fprintf (w : Writer) (format : string) (a : list any)
  : Writer * option error :=
  Writer_Write w (fmt_Sprintf format a).

Definition textRender_Render (Format : string) (Values : list any) (w : Writer)
  : Writer * option error :=
  if (0 <? length Values)%nat
  then fmt_Fprintf w Format Values
  else Writer_Write w Format.

(** [json.NewEncoder(w).Encode(v)]: the marshalled value and a newline, in
    one [Write]. *)
Definition json_Encode (w : Writer) (v : any) : Writer * option error :=
  match json_Marshal v with
  | inl e => (w, Some e)
  | inr b => Writer_Write w (b +:+ String "010"%char EmptyString)
  end.

Definition jsonRender_Render (data : any) (w : Writer) : Writer * option error :=
  json_Encode w data.

(** The format ["%s(%s);"] applied to a string and a byte slice. *)
Definition jsonpFormat (callback jsonBytes : string) : string :=
  callback +:+ "(" +:+ jsonBytes +:+ ");".

Definition jsonpRender_Render (Callback : string) (data : any) (w : Writer)
  : Writer * option error :=
  match json_Marshal data with
  | inl e => (w, Some e)
  | inr jsonBytes =>
      if (String.length Callback =? 0)%nat
      then Writer_Write w jsonBytes
      else Writer_Write w (jsonpFormat Callback jsonBytes)
  end.

Definition secureJSONRender_Render (Prefix : string) (data : any) (w : Writer)
  : Writer * option error :=
  match Writer_Write w Prefix with
  | (w', Some e) => (w', Some e)
  | (w', None) => json_Encode w' data
  end.

(** The deferred [ess.CloseQuietly] closes the source after the copy and
    drops the close error: it changes neither the sink nor the result. *)
Definition binaryRender_Render (fs : FileSystem) (Path : string)
    (Reader_ : option Reader) (w : Writer) : Writer * option error :=
  match Reader_ with
  | Some rd => io_Copy w rd
  | None =>
      match fs Path with
      | inl e => (w, Some e)
      | inr file =>
          match File_Stat file with
          | inl e => (w, Some e)
          | inr fi =>
              if IsDir fi
              then (w, Some (errorString ("'" +:+ Path +:+ "' is a directory")))
              else io_Copy w (File_Reader file)
          end
      end
  end.

Definition htmlRender_Render (Template_ : option Template) (Layout : string)
    (ViewArgs : Data) (w : Writer) : Writer * option error :=
  match Template_ with
  | None => (w, Some (errorString "template is nil"))
  | Some t =>
      if String.eqb Layout ""
      then Template_Execute t w ViewArgs
      else Template_ExecuteTemplate t w Layout ViewArgs
  end.
End Renderers.

(** ** The Data-to-XML mapper *)

Section Mapper.
Context `{GoLib}.

(** [for _, t := range tokens { if err = e.EncodeToken(t); err != nil
    { return err } }] *)
Fixpoint EncodeTokens {E : Type} `{XmlEncoder E} (e : E) (tokens : list Token)
  : E * option error :=
  match tokens with
  | [] => (e, None)
  | t :: tokens' =>
      match EncodeToken e t with
      | (e', Some err) => (e', Some err)
      | (e', None) => EncodeTokens e' tokens'
      end
  end.

(** [range d] is the order in which this run visits [d]. *)
Definition Data_MarshalXML {E : Type} `{XmlEncoder E} (range : RangeOrder)
    (d : Data) (e : E) (start : StartElement) : E * option error :=
  let tokens := [TStartElement start] in
  let tokens :=
    fold_left
      (fun tokens kv =>
         let token := mkStart (mkName "" (strings_Title (fst kv))) [] in
         tokens ++ [TStartElement token;
                    TCharData (fmt_Sprint_v (snd kv));
                    TEndElement (Start_Name token)])
      (range d) tokens in
  let tokens := tokens ++ [TEndElement (Start_Name start)] in
  match EncodeTokens e tokens with
  | (e', Some err) => (e', Some err)
  | (e', None) => Flush e'
  end.
End Mapper.

(** ** The XML encoder and the XML renderer *)

Definition dquote : string := String "034"%char EmptyString.

(** [xml.Header] *)
Definition xml_Header : string :=
  "<?xml version=" +:+ dquote +:+ "1.0" +:+ dquote +:+ " encoding=" +:+ dquote
  +:+ "UTF-8" +:+ dquote +:+ "?>" +:+ String "010"%char EmptyString.

Definition xmlHeaderBytes : string := xml_Header.

(** The printer behind [*xml.Encoder]: the sink, the bytes printed and not
    yet flushed, the write error the buffered writer remembers, and the stack
    of open tags with the innermost first.  The buffer holds everything
    until [Flush], as the encoder's contract allows. *)
Record printer : Type := mkPrinter {
  p_w : Writer;
  p_buf : string;
  p_err : option error;
  p_tags : list Name
}.

Section Encoder.
Context `{GoLib}.

Definition printer_WriteString (p : printer) (s : string) : printer :=
  match p_err p with
  | Some _ => p
  | None => mkPrinter (p_w p) (p_buf p +:+ s) None (p_tags p)
  end.

Definition set_tags (tags : list Name) (p : printer) : printer :=
  mkPrinter (p_w p) (p_buf p) (p_err p) tags.

Definition printer_Flush (p : printer) : printer * option error :=
  match p_err p with
  | Some e => (p, Some e)
  | None =>
      if (String.length (p_buf p) =? 0)%nat then (p, None)
      else
        match Writer_Write (p_w p) (p_buf p) with
        | (w', Some e) => (mkPrinter w' (p_buf p) (Some e) (p_tags p), Some e)
        | (w', None) => (mkPrinter w' "" None (p_tags p), None)
        end
  end.

(** [for _, attr := range start.Attr { ... }] *)
Definition printer_writeAttrs (p : printer) (attrs : list Attr) : printer :=
  fold_left (fun p a => printer_WriteString p (xml_attribute a)) attrs p.

Definition printer_writeStart (p : printer) (start : StartElement)
  : printer * option error :=
  if String.eqb (Local (Start_Name start)) ""
  then (p, Some (errorString "xml: start tag with no name"))
  else
    let p := set_tags (Start_Name start :: p_tags p) p in
    let p := printer_WriteString p "<" in
    let p := printer_WriteString p (Local (Start_Name start)) in
    let p :=
      if negb (String.eqb (Space (Start_Name start)) "")
      then printer_WriteString p
             (" xmlns=" +:+ dquote
              +:+ xml_escapeText true (Space (Start_Name start)) +:+ dquote)
      else p in
    let p := printer_writeAttrs p (Start_Attr start) in
    (printer_WriteString p ">", None).

Definition printer_writeEnd (p : printer) (name : Name) : printer * option error :=
  if String.eqb (Local name) ""
  then (p, Some (errorString "xml: end tag with no name"))
  else
    match p_tags p with
    | [] =>
        (p, Some (errorString
                    ("xml: end tag </" +:+ Local name +:+ "> without start tag")))
    | top :: rest =>
        if String.eqb (Local top) ""
        then (p, Some (errorString
                    ("xml: end tag </" +:+ Local name +:+ "> without start tag")))
        else if negb (bool_decide (top = name))
        then
          if negb (String.eqb (Local top) (Local name))
          then (p, Some (errorString
                    ("xml: end tag </" +:+ Local name
                     +:+ "> does not match start tag <" +:+ Local top +:+ ">")))
          else (p, Some (errorString
                    ("xml: end tag </" +:+ Local name +:+ "> in namespace "
                     +:+ Space name +:+ " does not match start tag <"
                     +:+ Local top +:+ "> in namespace " +:+ Space top)))
        else
          let p := set_tags rest p in
          let p := printer_WriteString p "</" in
          let p := printer_WriteString p (Local name) in
          (printer_WriteString p ">", None)
    end.

Definition printer_EncodeToken (p : printer) (t : Token) : printer * option error :=
  match t with
  | TStartElement start =>
      match printer_writeStart p start with
      | (p', Some e) => (p', Some e)
      | (p', None) => (p', p_err p')
      end
  | TEndElement name =>
      match printer_writeEnd p name with
      | (p', Some e) => (p', Some e)
      | (p', None) => (p', p_err p')
      end
  | TCharData data =>
      let p' := printer_WriteString p (xml_escapeText false data) in
      (p', p_err p')
  end.

#[global] Instance printer_XmlEncoder : XmlEncoder printer :=
  {| EncodeToken := printer_EncodeToken; Flush := printer_Flush |}.

(** [xml.NewEncoder(w)] *)
Definition xml_NewEncoder (w : Writer) : printer := mkPrinter w "" None [].

(** The [k] oldest entries of a stack kept innermost first: [tags[:k]]. *)
Definition oldest (k : nat) (tags : list Name) : list Name :=
  skipn (length tags - k) tags.

(** [marshalInterface] for a [Data]: a marker on the tag stack keeps
    [MarshalXML] from closing tags it did not open. *)
Definition printer_marshalInterface (range : RangeOrder) (p : printer)
    (val : Data) (start : StartElement) : printer * option error :=
  let p := set_tags (mkName "" "" :: p_tags p) p in
  let n := length (p_tags p) in
  match Data_MarshalXML range val p start with
  | (p', Some e) => (p', Some e)
  | (p', None) =>
      if (n <? length (p_tags p'))%nat
      then (p', Some (errorString
              ("xml: aah.Data.MarshalXML wrote invalid XML: <"
               +:+ Local (hd (mkName "" "") (p_tags p')) +:+ "> not closed")))
      else (set_tags (oldest (n - 1) (p_tags p')) p', None)
  end.

(** [marshalValue]: a [Data] implements [xml.Marshaler] and starts at the
    element named after its type; any other value is the standard
    encoder's business. *)
Definition printer_marshalValue (range : RangeOrder) (p : printer) (v : any)
  : printer * option error :=
  match any_Data v with
  | Some d => printer_marshalInterface range p d (mkStart (mkName "" "Data") [])
  | None =>
      match xml_marshalValue v with
      | inl e => (p, Some e)
      | inr b => let p' := printer_WriteString p b in (p', p_err p')
      end
  end.

Definition Encoder_Encode (range : RangeOrder) (p : printer) (v : any)
  : printer * option error :=
  match printer_marshalValue range p v with
  | (p', Some e) => (p', Some e)
  | (p', None) => printer_Flush p'
  end.

(** [xml.Marshal(v)]: [Encode] into a buffer of its own. *)
Definition xml_Marshal (range : RangeOrder) (v : any) : error + string :=
  match Encoder_Encode range (xml_NewEncoder (mkWriter "" None)) v with
  | (_, Some e) => inl e
  | (p, None) => inr (written (p_w p))
  end.

Definition xmlRender_Render (range : RangeOrder) (data : any) (w : Writer)
  : Writer * option error :=
  match Writer_Write w xmlHeaderBytes with
  | (w', Some e) => (w', Some e)
  | (w', None) =>
      match Encoder_Encode range (xml_NewEncoder w') data with
      | (p, e) => (p_w p, e)
      end
  end.

(** [rdr.Render(w)] on a value of the interface type. *)
Definition Render_Render (range : RangeOrder) (fs : FileSystem) (rdr : Render)
    (w : Writer) : Writer * option error :=
  match rdr with
  | RenderFunc rf => rf w
  | textRender f vs => textRender_Render f vs w
  | jsonRender d => jsonRender_Render d w
  | jsonpRender cb d => jsonpRender_Render cb d w
  | secureJSONRender pre d => secureJSONRender_Render pre d w
  | xmlRender d => xmlRender_Render range d w
  | binaryRender pth rd => binaryRender_Render fs pth rd w
  | htmlRender t l _ args => htmlRender_Render t l args w
  end.
End Encoder.

(** ** A library instance that computes

    A small universe of dynamic values with the standard encoders written out
    on it, for running the builder and the renderers on concrete inputs.
    Strings are taken to be ASCII here; attributes with a name space and
    compiled templates are outside this instance. *)
Module Ref.

Inductive value : Type :=
| VNil
| VBool (b : bool)
| VInt (z : Z)
| VString (s : string)
| VData (entries : list (string * value)).

Definition itoa (z : Z) : string := NilZero.string_of_int (Z.to_int z).

Fixpoint concatStrings (l : list string) : string :=
  match l with
  | [] => EmptyString
  | s :: l' => s +:+ concatStrings l'
  end.

Fixpoint joinStrings (sep : string) (l : list string) : string :=
  match l with
  | [] => EmptyString
  | [s] => s
  | s :: l' => s +:+ sep +:+ joinStrings sep l'
  end.

(** Entries by ascending key, the first entry of a key winning. *)
Fixpoint insertEntry {A : Type} (kv : string * A) (l : list (string * A))
  : list (string * A) :=
  match l with
  | [] => [kv]
  | kv' :: l' =>
      if String.eqb (fst kv) (fst kv') then kv :: l'
      else if String.ltb (fst kv) (fst kv') then kv :: kv' :: l'
      else kv' :: insertEntry kv l'
  end.

Definition sortEntries {A : Type} (l : list (string * A)) : list (string * A) :=
  fold_right insertEntry [] l.

Definition hexDigit (n : nat) : ascii :=
  ascii_of_nat (if (n <? 10)%nat then 48 + n else 87 + n).

(** The escape [\u00XX] of [encoding/json]. *)
Definition jsonUnicodeEscape (c : ascii) : string :=
  "\u00" +:+ String (hexDigit (nat_of_ascii c / 16))
               (String (hexDigit (nat_of_ascii c mod 16)) EmptyString).

Definition jsonEscapeByte (c : ascii) : string :=
  let n := nat_of_ascii c in
  if (n =? 34)%nat then "\" +:+ dquote
  else if (n =? 92)%nat then "\\"
  else if (n =? 10)%nat then "\n"
  else if (n =? 13)%nat then "\r"
  else if (n =? 9)%nat then "\t"
  else if ((n <? 32) || (n =? 60) || (n =? 62) || (n =? 38))%nat
  then jsonUnicodeEscape c
  else String c EmptyString.

Fixpoint escapeWith (f : ascii -> string) (s : string) : string :=
  match s with
  | EmptyString => EmptyString
  | String c s' => f c +:+ escapeWith f s'
  end.

Definition jsonQuote (s : string) : string :=
  dquote +:+ escapeWith jsonEscapeByte s +:+ dquote.

(** [json.Marshal]: compact, keys of a map in ascending order. *)
Fixpoint jsonEncode (v : value) : string :=
  match v with
  | VNil => "null"
  | VBool b => if b then "true" else "false"
  | VInt z => itoa z
  | VString s => jsonQuote s
  | VData entries =>
      let encoded :=
        (fix go (l : list (string * value)) : list (string * string) :=
           match l with
           | [] => []
           | (k, v') :: l' => (k, jsonEncode v') :: go l'
           end) entries in
      "{" +:+ joinStrings ","
                (map (fun kv => jsonQuote (fst kv) +:+ ":" +:+ snd kv)
                     (sortEntries encoded))
      +:+ "}"
  end.

(** [%v]: a map prints as [map[k:v k:v]] with ascending keys. *)
Fixpoint sprint (v : value) : string :=
  match v with
  | VNil => "<nil>"
  | VBool b => if b then "true" else "false"
  | VInt z => itoa z
  | VString s => s
  | VData entries =>
      let printed :=
        (fix go (l : list (string * value)) : list (string * string) :=
           match l with
           | [] => []
           | (k, v') :: l' => (k, sprint v') :: go l'
           end) entries in
      "map[" +:+ joinStrings " "
                   (map (fun kv => fst kv +:+ ":" +:+ snd kv) (sortEntries printed))
      +:+ "]"
  end.

(** The verbs [%v], [%s], [%d] and [%%]; a verb without an operand prints
    as [%!v(MISSING)]. *)
Fixpoint sprintf (format : string) (a : list value) : string :=
  match format with
  | String "%"%char (String c rest) =>
      if Ascii.eqb c "%"%char then "%" +:+ sprintf rest a
      else match a with
           | [] => "%!" +:+ String c "(MISSING)" +:+ sprintf rest []
           | v :: a' => sprint v +:+ sprintf rest a'
           end
  | String c rest => String c (sprintf rest a)
  | EmptyString => EmptyString
  end.

Definition xmlEscapeByte (escapeNewline : bool) (c : ascii) : string :=
  let n := nat_of_ascii c in
  if (n =? 34)%nat then "&#34;"
  else if (n =? 39)%nat then "&#39;"
  else if (n =? 38)%nat then "&amp;"
  else if (n =? 60)%nat then "&lt;"
  else if (n =? 62)%nat then "&gt;"
  else if (n =? 9)%nat then "&#x9;"
  else if (n =? 10)%nat
  then (if escapeNewline then "&#xA;" else String c EmptyString)
  else if (n =? 13)%nat then "&#xD;"
  else if (n <? 32)%nat
  then String (ascii_of_nat 239)
         (String (ascii_of_nat 191) (String (ascii_of_nat 189) EmptyString))
  else String c EmptyString.

Definition escapeText (escapeNewline : bool) (s : string) : string :=
  escapeWith (xmlEscapeByte escapeNewline) s.

Definition attribute (a : Attr) : string :=
  if String.eqb (Local (Attr_Name a)) ""
     || negb (String.eqb (Space (Attr_Name a)) "")
  then EmptyString
  else " " +:+ Local (Attr_Name a) +:+ "=" +:+ dquote
       +:+ escapeText true (Attr_Value a) +:+ dquote.

Definition element (name body : string) : string :=
  "<" +:+ name +:+ ">" +:+ body +:+ "</" +:+ name +:+ ">".

(** [xml.Marshal] of the scalars: an element named after the Go type. *)
Definition xmlScalar (v : value) : error + string :=
  match v with
  | VNil => inr EmptyString
  | VBool b => inr (element "bool" (if b then "true" else "false"))
  | VInt z => inr (element "int" (itoa z))
  | VString s => inr (element "string" (escapeText true s))
  | VData _ => inl (errorString "xml: unsupported type: aah.Data")
  end.

Definition asData (v : value) : option (gmap string value) :=
  match v with
  | VData entries => Some (list_to_map entries)
  | _ => None
  end.

Definition hasSuffix (s suffix : string) : bool :=
  (String.length suffix <=? String.length s)%nat
  && String.eqb suffix
       (substring (String.length s - String.length suffix)
                  (String.length suffix) s).

(** Compressed formats are not worth compressing again. *)
Definition isGzipWorthForFile (name : string) : bool :=
  negb (existsb (hasSuffix name) [".gz"; ".zip"; ".png"; ".jpg"; ".gif"]).

Definition lib : GoLib := {|
  any := value;
  any_Data := asData;
  fmt_Sprint_v := sprint;
  fmt_Sprintf := sprintf;
  json_Marshal := fun v => inr (jsonEncode v);
  xml_marshalValue := xmlScalar;
  xml_escapeText := escapeText;
  xml_attribute := attribute;
  unicode_ToLower := fun s => s;
  unicode_Title := fun s => s;
  filepath_IsAbs := String.prefix "/";
  filepath_Join := fun dir file => dir +:+ "/" +:+ file;
  util_IsGzipWorthForFile := isGzipWorthForFile;
  Template := Empty_set;
  Template_Execute := fun t _ _ => match t with end;
  Template_ExecuteTemplate := fun t _ _ _ => match t with end
|}.

(** The range order of the examples: the map's entries as [map_to_list]
    gives them. *)
Definition range : @RangeOrder lib := fun d => map_to_list d.

(** A file system with one directory and one file. *)
Definition fs : FileSystem := fun p =>
  if String.eqb p "/srv/app" then
    inr (mkFile (inr (mkFileInfo true))
                (mkReader "" (Some (PathError "read" p (errorString "is a directory")))))
  else if String.eqb p "/srv/app/hello.txt" then
    inr (mkFile (inr (mkFileInfo false)) (mkReader "hello" None))
  else inl (PathError "open" p (errorString "no such file or directory")).

Definition context : Context := mkContext ∅ "/srv/app" ")]}',".

Definition sink : Writer := mkWriter "" None.

(** A sink that takes ten more bytes. *)
Definition smallSink : Writer := mkWriter "" (Some (10%nat, errorString "sink is full")).

Definition reply : @Reply lib := @newReply lib context.

(** The payloads [{"a":1}] and [{"name":"x"}], and the JSON text of the
    first. *)
Definition payload_a1 : value := VData [("a", VInt 1)].
Definition payload_name : value := VData [("name", VString "x")].
Definition data_name : gmap string value := list_to_map [("name", VString "x")].
Definition json_a1 : string := "{" +:+ dquote +:+ "a" +:+ dquote +:+ ":1}".

Definition newline : string := String "010"%char EmptyString.

Definition root : StartElement := mkStart (mkName "" "Root") [].

(** Three chains of builder calls. *)
Definition chainPlain : list (@Call lib) :=
  [@CNotFound lib; @CJSON lib VNil; @CHeader lib "X-Frame-Options" "DENY"].
Definition chainJSON : list (@Call lib) :=
  [@CJSON lib VNil; @CStatus lib 201].
Definition chainTypes : list (@Call lib) :=
  [@CJSON lib VNil; @CXML lib VNil; @CHeader lib "Content-Type" "text/css";
   @CHeaderAppend lib "Content-Type" "text/csv"; @CHTML lib ∅].

(** A chain that stays away from the header map, and a builder that
    already carries a header. *)
Definition chainQuiet : list (@Call lib) :=
  [@CJSON lib VNil; @CHeader lib "Content-Type" "text/css"; @CNotFound lib;
   @CCookie lib (mkCookie "sid" "1"); @CFile lib "site.css"].
Definition replyWithHeader : @Reply lib :=
  @Reply_Header lib reply "X-Frame-Options" "DENY".

End Ref.

(** ** Vocabulary of the statements *)

Section Vocabulary.
Context `{GoLib}.

(** The three tokens of one entry: the element named by the title-cased
    key around the value's [%v] text. *)
Definition entryTokens (kv : string * any) : list Token :=
  let name := mkName "" (strings_Title (fst kv)) in
  [TStartElement (mkStart name []); TCharData (fmt_Sprint_v (snd kv));
   TEndElement name].

(** The entries' elements nested inside [start] and its end element. *)
Definition nestedTokens (start : StartElement) (entries : list (string * any))
  : list Token :=
  TStartElement start :: concat (map entryTokens entries)
    ++ [TEndElement (Start_Name start)].

(** No call of the chain goes through [File]. *)
Definition noFileCall (cs : list Call) : bool :=
  forallb (fun c => negb (isFileCall c)) cs.

(** The path [File] hands to the heuristic and to the renderer. *)
Definition resolvedFile (r : Reply) (file : string) : string :=
  if filepath_IsAbs file then file else filepath_Join (BaseDir (ctx r)) file.

Fixpoint concatBytes (l : list string) : string :=
  match l with
  | [] => EmptyString
  | s :: l' => s +:+ concatBytes l'
  end.

(** The text of a start tag, of an end tag, and of one entry's element. *)
Definition startTag (start : StartElement) : string :=
  "<" +:+ Local (Start_Name start)
  +:+ (if String.eqb (Space (Start_Name start)) "" then ""
       else " xmlns=" +:+ dquote
            +:+ xml_escapeText true (Space (Start_Name start)) +:+ dquote)
  +:+ concatBytes (map xml_attribute (Start_Attr start)) +:+ ">".

Definition endTag (name : Name) : string := "</" +:+ Local name +:+ ">".

Definition entryBytes (kv : string * any) : string :=
  "<" +:+ strings_Title (fst kv) +:+ ">"
  +:+ xml_escapeText false (fmt_Sprint_v (snd kv))
  +:+ "</" +:+ strings_Title (fst kv) +:+ ">".

(** The printer [p] with another sink behind its buffer. *)
Definition retarget (w : Writer) (p : printer) : printer :=
  mkPrinter w (p_buf p) (p_err p) (p_tags p).

(** The status a call assigns, when it assigns one. *)
Definition statusOf (c : Call) : option Z :=
  match c with
  | CStatus code => Some code
  | COk => Some 200
  | CCreated => Some 201
  | CAccepted => Some 202
  | CNoContent => Some 204
  | CMovedPermanently => Some 301
  | CFound => Some 302
  | CTemporaryRedirect => Some 307
  | CBadRequest => Some 400
  | CUnauthorized => Some 401
  | CForbidden => Some 403
  | CNotFound => Some 404
  | CMethodNotAllowed => Some 405
  | CNotAcceptable => Some 406
  | CConflict => Some 409
  | CUnsupportedMediaType => Some 415
  | CInternalServerError => Some 500
  | CServiceUnavailable => Some 503
  | CRedirect _ => Some 302
  | CRedirectWithStatus _ code => Some code
  | _ => None
  end.

Definition isDoneCall (c : Call) : bool :=
  match c with CDone => true | _ => false end.

Definition isRedirectCall (c : Call) : bool :=
  match c with CRedirect _ | CRedirectWithStatus _ _ => true | _ => false end.

(** The target a redirect call names. *)
Definition redirectTarget (c : Call) : option string :=
  match c with
  | CRedirect u | CRedirectWithStatus u _ => Some u
  | _ => None
  end.

Definition cookieOf (c : Call) : option Cookie :=
  match c with CCookie k => Some k | _ => None end.

Definition errorOf (c : Call) : option (option Error) :=
  match c with CError e => Some e | _ => None end.

(** [file] against the base directory [baseDir], as [File] resolves it. *)
Definition resolveAgainst (baseDir file : string) : string :=
  if filepath_IsAbs file then file else filepath_Join baseDir file.

(** The renderer a call attaches, when it attaches one, in an application
    with base directory [baseDir] and secure-JSON prefix [prefix]. *)
Definition attachedBy (baseDir prefix : string) (c : Call)
  : option (option Render) :=
  match c with
  | CJSON d => Some (Some (jsonRender d))
  | CJSONSecure d => Some (Some (secureJSONRender prefix d))
  | CJSONP d cb => Some (Some (jsonpRender cb d))
  | CXML d => Some (Some (xmlRender d))
  | CText f vs => Some (Some (textRender f vs))
  | CBinary b => Some (Some (binaryRender "" (Some (bytes_NewReader b))))
  | CFromReader rd => Some (Some (binaryRender "" rd))
  | CFile f | CFileDownload f _ | CFileInline f _ =>
      Some (Some (binaryRender (resolveAgainst baseDir f) None))
  | CHTML d => Some (Some (htmlRender None "" "" d))
  | CHTMLl l d => Some (Some (htmlRender None l "" d))
  | CHTMLf f d => Some (Some (htmlRender None "" f d))
  | CHTMLlf l f d => Some (Some (htmlRender None l f d))
  | CRender rdr => Some rdr
  | _ => None
  end.

(** The calls that reach the response header map: [Header] and
    [HeaderAppend] with a key other than the reserved one, and the two file
    calls that set [Content-Disposition]. *)
Definition touchesHeaders (c : Call) : bool :=
  match c with
  | CHeader k _ | CHeaderAppend k _ => negb (String.eqb k HeaderContentType)
  | CFileDownload _ _ | CFileInline _ _ => true
  | _ => false
  end.

(** The gzip flag a call assigns, when it assigns one. *)
Definition gzipOf (baseDir : string) (c : Call) : option bool :=
  match c with
  | CDisableGzip => Some false
  | CFile f | CFileDownload f _ | CFileInline f _ =>
      Some (util_IsGzipWorthForFile (resolveAgainst baseDir f))
  | _ => None
  end.

(** The content type a call offers to [ContentType], when it offers one. *)
Definition offeredType (c : Call) : option string :=
  match c with
  | CContentType v => Some (strings_ToLower v)
  | CJSON _ | CJSONSecure _ => Some (strings_ToLower ContentTypeJSON)
  | CJSONP _ _ => Some (strings_ToLower ContentTypeJavascript)
  | CXML _ => Some (strings_ToLower ContentTypeXML)
  | CText _ _ => Some (strings_ToLower ContentTypePlainText)
  | CHTML _ | CHTMLl _ _ | CHTMLf _ _ | CHTMLlf _ _ _ =>
      Some (strings_ToLower ContentTypeHTML)
  | CHeader k v | CHeaderAppend k v =>
      if String.eqb k HeaderContentType then Some (strings_ToLower v) else None
  | _ => None
  end.

(** The first string of a list that is not empty, or the empty string. *)
Fixpoint firstNonEmpty (l : list string) : string :=
  match l with
  | [] => ""
  | s :: l' => if String.eqb s "" then firstNonEmpty l' else s
  end.

End Vocabulary.

(** * Properties *)

Create HintDb builder.

#[global] Hint Unfold
  Reply_Status Reply_Ok Reply_Created Reply_Accepted Reply_NoContent
  Reply_MovedPermanently Reply_Found Reply_TemporaryRedirect Reply_BadRequest
  Reply_Unauthorized Reply_Forbidden Reply_NotFound Reply_MethodNotAllowed
  Reply_NotAcceptable Reply_Conflict Reply_UnsupportedMediaType
  Reply_InternalServerError Reply_ServiceUnavailable
  Reply_Render Reply_JSON Reply_JSONSecure Reply_JSONP Reply_XML Reply_Text
  Reply_FromReader Reply_Binary Reply_File Reply_FileDownload Reply_FileInline
  Reply_HTML Reply_HTMLl Reply_HTMLf Reply_HTMLlf Reply_Redirect
  Reply_RedirectWithStatus Reply_Error Reply_Header Reply_HeaderAppend
  Reply_Done Reply_Cookie Reply_DisableGzip : builder.

(** ** Strings *)

Lemma length_zero_eq (s : string) :
  (String.length s =? 0)%nat = true <-> s = "".
Proof.
  destruct s as [|c s]; simpl; split; intros Hs; try reflexivity; discriminate.
Qed.

Lemma length_zero_neq (s : string) :
  (String.length s =? 0)%nat = false <-> s <> "".
Proof.
  destruct s as [|c s]; simpl; split; intros Hs; try congruence; try reflexivity.
Qed.

Lemma append_cons (c : ascii) (s t : string) :
  String c s +:+ t = String c (s +:+ t).
Proof. reflexivity. Qed.

Lemma append_nil_r (s : string) : s +:+ "" = s.
Proof.
  induction s as [|c s IH]; [reflexivity|]. now rewrite append_cons, IH.
Qed.

Lemma append_assoc (s t u : string) : (s +:+ t) +:+ u = s +:+ (t +:+ u).
Proof.
  induction s as [|c s IH]; [reflexivity|]. now rewrite !append_cons, IH.
Qed.

(** ** The builder *)

Section BuilderFacts.
Context `{GoLib}.

Lemma ContentType_unset (r : Reply) (v : string) :
  ContType r = "" -> Reply_ContentType r v = set_ContType (strings_ToLower v) r.
Proof. intros Hr. unfold Reply_ContentType. now rewrite Hr. Qed.

Lemma ContentType_set (r : Reply) (w : string) :
  ContType r <> "" -> Reply_ContentType r w = r.
Proof.
  intros Hr. unfold Reply_ContentType.
  apply length_zero_neq in Hr. now rewrite Hr.
Qed.

(** [ContentType("")] never changes the builder. *)
Lemma ContentType_empty (r : Reply) : Reply_ContentType r "" = r.
Proof.
  unfold Reply_ContentType.
  destruct (String.length (ContType r) =? 0)%nat eqn:Hlen; [|reflexivity].
  apply length_zero_eq in Hlen. destruct r as [? ? ct ? ? ? ? ? ? ? ?].
  simpl in Hlen. subst ct. reflexivity.
Qed.

Lemma ContType_ContentType (r : Reply) (w : string) :
  ContType r <> "" -> ContType (Reply_ContentType r w) = ContType r.
Proof. intros Hr. now rewrite ContentType_set. Qed.

(** A call other than [ContentType] (direct or routed) leaves the content
    type alone; [ContentType] leaves it alone once it is set. *)
Lemma call_ContType (r : Reply) (c : Call) :
  ContType r <> "" -> ContType (call r c) = ContType r.
Proof.
  intros Hr.
  destruct c; simpl; autounfold with builder;
    repeat match goal with
      | |- context [if ?b then _ else _] => destruct b
      | |- context [match cookies ?x with _ => _ end] => destruct (cookies x)
      end;
    rewrite ?ContentType_set by assumption; reflexivity.
Qed.

Lemma calls_ContType (r : Reply) (cs : list Call) :
  ContType r <> "" -> ContType (calls r cs) = ContType r.
Proof.
  revert r. induction cs as [|c cs IH]; intros r Hr; [reflexivity|].
  unfold calls in *. simpl. rewrite IH; rewrite call_ContType; auto.
Qed.

(** Apart from [File], a call either leaves the gzip flag alone or lowers
    it. *)
Lemma call_gzip_false (r : Reply) (c : Call) :
  isFileCall c = false -> gzip r = false -> gzip (call r c) = false.
Proof.
  intros Hc Hr.
  destruct c; try discriminate Hc; simpl; autounfold with builder;
    unfold Reply_ContentType;
    repeat match goal with
      | |- context [if ?b then _ else _] => destruct b
      | |- context [match cookies ?x with _ => _ end] => destruct (cookies x)
      end;
    solve [reflexivity | exact Hr].
Qed.

Lemma calls_gzip_false (r : Reply) (cs : list Call) :
  noFileCall cs = true -> gzip r = false -> gzip (calls r cs) = false.
Proof.
  revert r. induction cs as [|c cs IH]; intros r Hcs Hr; [exact Hr|].
  unfold noFileCall in *. simpl in Hcs. apply andb_prop in Hcs as [Hc Hcs].
  unfold calls in *. simpl. apply IH; [assumption|].
  apply call_gzip_false; [|assumption]. now destruct (isFileCall c).
Qed.

Lemma Header_gzip (r : Reply) (key value : string) :
  gzip (Reply_Header r key value) = gzip r.
Proof.
  unfold Reply_Header, Reply_ContentType.
  repeat match goal with
    | |- context [if ?b then _ else _] => destruct b
    end; reflexivity.
Qed.
End BuilderFacts.

Section BuilderClaims.
Context `{GoLib}.

Lemma Header_BaseDir (r : Reply) (key value : string) :
  BaseDir (ctx (Reply_Header r key value)) = BaseDir (ctx r).
Proof.
  unfold Reply_Header, Reply_ContentType.
  repeat match goal with
    | |- context [if ?b then _ else _] => destruct b
    end; reflexivity.
Qed.

Lemma File_gzip (r : Reply) (file : string) :
  gzip (Reply_File r file) = util_IsGzipWorthForFile (resolvedFile r file).
Proof.
  unfold Reply_File, resolvedFile. now destruct (filepath_IsAbs file).
Qed.

(** C1, on the code: [Header] with the reserved key [Content-Type] and an
    empty value calls [ContentType("")], which is a no-op on a builder whose
    content type is set.  The builder is left exactly as it was and
    [IsContentTypeSet] still answers true: the content type is not
    cleared. *)
Theorem Header_ContentType_empty_does_not_clear (r : Reply) :
  ContType r <> "" ->
  Reply_Header r HeaderContentType "" = r /\
  Reply_IsContentTypeSet (Reply_Header r HeaderContentType "") = true.
Proof.
  intros Hr.
  assert (Hh : Reply_Header r HeaderContentType "" = r).
  { unfold Reply_Header. simpl. apply ContentType_empty. }
  split; [exact Hh|]. rewrite Hh. unfold Reply_IsContentTypeSet.
  destruct (ContType r); [congruence | reflexivity].
Qed.

(** C2, amended: [DisableGzip] sets the gzip flag to false, and the flag
    stays false through every later chain of builder calls that does not go
    through [File]; [File], [FileDownload] and [FileInline] overwrite the
    flag with the answer of the gzip heuristic for the resolved path, also
    after [DisableGzip]; [DisableGzip] called after [File] gives false. *)
Theorem DisableGzip_holds_until_File (r : Reply) (cs : list Call)
    (file targetName : string) :
  gzip (Reply_DisableGzip r) = false /\
  (noFileCall cs = true -> gzip (calls (Reply_DisableGzip r) cs) = false) /\
  gzip (Reply_File (Reply_DisableGzip r) file)
    = util_IsGzipWorthForFile (resolvedFile r file) /\
  gzip (Reply_FileDownload (Reply_DisableGzip r) file targetName)
    = util_IsGzipWorthForFile (resolvedFile r file) /\
  gzip (Reply_FileInline (Reply_DisableGzip r) file targetName)
    = util_IsGzipWorthForFile (resolvedFile r file) /\
  gzip (Reply_DisableGzip (Reply_File r file)) = false.
Proof.
  split; [reflexivity|]. split.
  { intros Hcs. now apply calls_gzip_false. }
  split; [rewrite File_gzip; reflexivity|].
  split; [|split; [|reflexivity]].
  - unfold Reply_FileDownload. rewrite File_gzip. unfold resolvedFile.
    rewrite Header_BaseDir. reflexivity.
  - unfold Reply_FileInline. rewrite File_gzip. unfold resolvedFile.
    rewrite Header_BaseDir. reflexivity.
Qed.

(** C4: [ContentType] is first-write-wins.  On a builder without a content
    type, [ContentType(v)] stores [strings.ToLower(v)]; and while that
    stored value is non-empty, a later [ContentType(w)], after any chain of
    other builder calls, leaves the stored value as it is. *)
Theorem ContentType_first_write_wins (r : Reply) (v w : string)
    (cs : list Call) :
  ContType r = "" ->
  ContType (Reply_ContentType r v) = strings_ToLower v /\
  (strings_ToLower v <> "" ->
   Reply_ContentType (Reply_ContentType r v) w = Reply_ContentType r v /\
   ContType (Reply_ContentType (calls (Reply_ContentType r v) cs) w)
     = strings_ToLower v).
Proof.
  intros Hr. rewrite ContentType_unset by assumption.
  split; [reflexivity|]. intros Hv.
  assert (Hset : ContType (set_ContType (strings_ToLower v) r) <> "")
    by exact Hv.
  split; [now apply ContentType_set|].
  rewrite ContType_ContentType; rewrite calls_ContType; auto.
Qed.


(** C9: [Error] assigns the attached error and nothing else: the renderer,
    the status, the content type, the redirect flag and target, the done
    flag, the gzip flag, the context with its headers, the body buffer and
    the cookies of the returned builder are those of the receiver. *)
Theorem Error_sets_only_err (r : Reply) (e : option Error) :
  err (Reply_Error r e) = e /\
  Rdr (Reply_Error r e) = Rdr r /\
  Code (Reply_Error r e) = Code r /\
  ContType (Reply_Error r e) = ContType r /\
  redirect (Reply_Error r e) = redirect r /\
  path (Reply_Error r e) = path r /\
  done (Reply_Error r e) = done r /\
  gzip (Reply_Error r e) = gzip r /\
  ctx (Reply_Error r e) = ctx r /\
  body (Reply_Error r e) = body r /\
  cookies (Reply_Error r e) = cookies r.
Proof. repeat split. Qed.

(** C10: once the content type is non-empty, every builder call and every
    chain of builder calls preserves it; in particular [JSON],
    [JSONSecure], [JSONP], [XML], [Text], [HTMLlf], [Header] and
    [HeaderAppend] do not put their own MIME string in its place. *)
Theorem ContType_preserved_once_set (r : Reply) :
  ContType r <> "" ->
  (forall c : Call, ContType (call r c) = ContType r) /\
  (forall cs : list Call, ContType (calls r cs) = ContType r) /\
  (forall (data : any) (callback format key value layout filename : string)
          (values : list any) (args : Data),
      ContType (Reply_JSON r data) = ContType r /\
      ContType (Reply_JSONSecure r data) = ContType r /\
      ContType (Reply_JSONP r data callback) = ContType r /\
      ContType (Reply_XML r data) = ContType r /\
      ContType (Reply_Text r format values) = ContType r /\
      ContType (Reply_HTMLlf r layout filename args) = ContType r /\
      ContType (Reply_Header r key value) = ContType r /\
      ContType (Reply_HeaderAppend r key value) = ContType r).
Proof.
  intros Hr. split; [|split].
  - intros c. now apply call_ContType.
  - intros cs. now apply calls_ContType.
  - intros data callback format key value layout filename values args.
    repeat split.
    + exact (call_ContType r (CJSON data) Hr).
    + exact (call_ContType r (CJSONSecure data) Hr).
    + exact (call_ContType r (CJSONP data callback) Hr).
    + exact (call_ContType r (CXML data) Hr).
    + exact (call_ContType r (CText format values) Hr).
    + exact (call_ContType r (CHTMLlf layout filename args) Hr).
    + exact (call_ContType r (CHeader key value) Hr).
    + exact (call_ContType r (CHeaderAppend key value) Hr).
Qed.
End BuilderClaims.

(** ** The sink *)

Lemma Write_ok (w w' : Writer) (p : string) :
  Writer_Write w p = (w', None) -> written w' = written w +:+ p.
Proof.
  unfold Writer_Write. destruct (limit w) as [[k e]|].
  - destruct (String.length p <=? k)%nat; intros Hw; inversion Hw; reflexivity.
  - intros Hw. inversion Hw. reflexivity.
Qed.

Lemma Write_unlimited (w : Writer) (p : string) :
  limit w = None -> Writer_Write w p = (mkWriter (written w +:+ p) None, None).
Proof. intros Hw. unfold Writer_Write. now rewrite Hw. Qed.

(** ** JSONP and binary renderers *)

Section RendererClaims.
Context `{GoLib}.

(** C3, amended: with an empty callback the JSONP renderer hands the sink
    exactly the bytes of [json.Marshal] of the payload; with a non-empty
    callback exactly [name(json);].  The bytes are those of [json.Marshal],
    which ends without a newline, so for callback [cb] and payload
    [{"a":1}] the output is [cb({"a":1});].  A payload that does not
    marshal gives the marshal error and nothing is written. *)
Theorem jsonpRender_exact_bytes (Callback : string) (data : any) (w : Writer) :
  (forall jsonBytes : string,
      json_Marshal data = inr jsonBytes ->
      jsonpRender_Render "" data w = Writer_Write w jsonBytes /\
      (Callback <> "" ->
       jsonpRender_Render Callback data w
         = Writer_Write w (Callback +:+ "(" +:+ jsonBytes +:+ ");")) /\
      (Callback <> "" -> limit w = None ->
       jsonpRender_Render Callback data w
         = (mkWriter (written w +:+ Callback +:+ "(" +:+ jsonBytes +:+ ");")
                     None, None))) /\
  (forall e : error,
      json_Marshal data = inl e ->
      jsonpRender_Render Callback data w = (w, Some e)).
Proof.
  split.
  - intros jsonBytes Hm. unfold jsonpRender_Render. rewrite Hm. simpl.
    split; [reflexivity|].
    assert (Hcb : Callback <> "" ->
                  (String.length Callback =? 0)%nat = false)
      by (intros Hne; now apply length_zero_neq).
    split.
    + intros Hne. now rewrite Hcb.
    + intros Hne Hw. rewrite Hcb by assumption.
      unfold jsonpFormat. now apply Write_unlimited.
  - intros e Hm. unfold jsonpRender_Render. now rewrite Hm.
Qed.

(** C7: the path-based binary renderer, on a path that names a directory,
    fails with the error ['<path>' is a directory] and leaves the sink as
    it was; on a path that [os.Open] refuses it returns the open error and
    leaves the sink as it was. *)
Theorem binaryRender_directory_and_missing (fs : FileSystem) (Path : string)
    (w : Writer) :
  (forall (file : File) (fi : FileInfo),
      fs Path = inr file -> File_Stat file = inr fi -> IsDir fi = true ->
      binaryRender_Render fs Path None w
        = (w, Some (errorString ("'" +:+ Path +:+ "' is a directory")))) /\
  (forall e : error,
      fs Path = inl e ->
      binaryRender_Render fs Path None w = (w, Some e)).
Proof.
  split.
  - intros file fi Hopen Hstat Hdir. unfold binaryRender_Render.
    now rewrite Hopen, Hstat, Hdir.
  - intros e Hopen. unfold binaryRender_Render. now rewrite Hopen.
Qed.
End RendererClaims.

(** ** The mapper *)

Section MapperClaims.
Context `{GoLib}.

Lemma fold_entryTokens (entries : list (string * any)) (tokens : list Token) :
  fold_left
    (fun tokens kv =>
       let token := mkStart (mkName "" (strings_Title (fst kv))) [] in
       tokens ++ [TStartElement token; TCharData (fmt_Sprint_v (snd kv));
                  TEndElement (Start_Name token)])
    entries tokens
  = tokens ++ concat (map entryTokens entries).
Proof.
  revert tokens. induction entries as [|kv entries IH]; intros tokens; simpl.
  - now rewrite app_nil_r.
  - rewrite IH. unfold entryTokens at 2. simpl.
    rewrite <- app_assoc. reflexivity.
Qed.

(** The mapper's two loops: the nested token list goes to the encoder one
    token at a time, and [Flush] follows when none was refused. *)
Lemma MarshalXML_unfold {E : Type} `{XmlEncoder E} (range : RangeOrder)
    (d : Data) (e : E) (start : StartElement) :
  Data_MarshalXML range d e start =
    match EncodeTokens e (nestedTokens start (range d)) with
    | (e', Some err) => (e', Some err)
    | (e', None) => Flush e'
    end.
Proof.
  unfold Data_MarshalXML, nestedTokens. rewrite fold_entryTokens. reflexivity.
Qed.

End MapperClaims.

(** ** The XML encoder *)

Section EncoderFacts.
Context `{GoLib}.

Lemma WriteString_retarget (w : Writer) (p : printer) (s : string) :
  printer_WriteString (retarget w p) s = retarget w (printer_WriteString p s).
Proof. destruct p as [w0 b [e|] tags]; reflexivity. Qed.

Lemma WriteString_err (p : printer) (s : string) :
  p_err (printer_WriteString p s) = p_err p.
Proof. destruct p as [w0 b [e|] tags]; reflexivity. Qed.

Lemma WriteString_tags (p : printer) (s : string) :
  p_tags (printer_WriteString p s) = p_tags p.
Proof. destruct p as [w0 b [e|] tags]; reflexivity. Qed.

Lemma writeAttrs_retarget (w : Writer) (p : printer) (attrs : list Attr) :
  printer_writeAttrs (retarget w p) attrs = retarget w (printer_writeAttrs p attrs).
Proof.
  revert p. induction attrs as [|a attrs IH]; intros p; [reflexivity|].
  unfold printer_writeAttrs in *. simpl. rewrite WriteString_retarget. apply IH.
Qed.

Lemma writeAttrs_err (p : printer) (attrs : list Attr) :
  p_err (printer_writeAttrs p attrs) = p_err p.
Proof.
  revert p. induction attrs as [|a attrs IH]; intros p; [reflexivity|].
  unfold printer_writeAttrs in *. simpl. now rewrite IH, WriteString_err.
Qed.

Lemma writeAttrs_tags (p : printer) (attrs : list Attr) :
  p_tags (printer_writeAttrs p attrs) = p_tags p.
Proof.
  revert p. induction attrs as [|a attrs IH]; intros p; [reflexivity|].
  unfold printer_writeAttrs in *. simpl. now rewrite IH, WriteString_tags.
Qed.

Lemma set_tags_retarget (w : Writer) (p : printer) (tags : list Name) :
  set_tags tags (retarget w p) = retarget w (set_tags tags p).
Proof. reflexivity. Qed.

Lemma retarget_err (w : Writer) (p : printer) : p_err (retarget w p) = p_err p.
Proof. reflexivity. Qed.

Ltac push_retarget :=
  repeat (rewrite set_tags_retarget || rewrite WriteString_retarget
          || rewrite writeAttrs_retarget).

Lemma writeStart_retarget (w : Writer) (p : printer) (start : StartElement) :
  printer_writeStart (retarget w p) start
  = (retarget w (fst (printer_writeStart p start)),
     snd (printer_writeStart p start)).
Proof.
  unfold printer_writeStart.
  destruct (String.eqb (Local (Start_Name start)) ""); [reflexivity|].
  change (p_tags (retarget w p)) with (p_tags p).
  destruct (negb (String.eqb (Space (Start_Name start)) ""));
    push_retarget; reflexivity.
Qed.

Lemma writeEnd_retarget (w : Writer) (p : printer) (name : Name) :
  printer_writeEnd (retarget w p) name
  = (retarget w (fst (printer_writeEnd p name)), snd (printer_writeEnd p name)).
Proof.
  unfold printer_writeEnd.
  change (p_tags (retarget w p)) with (p_tags p).
  destruct (String.eqb (Local name) ""); [reflexivity|].
  destruct (p_tags p) as [|top rest]; [reflexivity|].
  destruct (String.eqb (Local top) ""); [reflexivity|].
  destruct (negb (bool_decide (top = name))).
  - destruct (negb (String.eqb (Local top) (Local name))); reflexivity.
  - push_retarget. reflexivity.
Qed.

Lemma writeStart_err (p : printer) (start : StartElement) :
  p_err (fst (printer_writeStart p start)) = p_err p.
Proof.
  unfold printer_writeStart.
  destruct (String.eqb (Local (Start_Name start)) ""); [reflexivity|].
  destruct (negb (String.eqb (Space (Start_Name start)) "")); simpl;
    now rewrite ?WriteString_err, ?writeAttrs_err, ?WriteString_err.
Qed.

Lemma writeEnd_err (p : printer) (name : Name) :
  p_err (fst (printer_writeEnd p name)) = p_err p.
Proof.
  unfold printer_writeEnd.
  destruct (String.eqb (Local name) ""); [reflexivity|].
  destruct (p_tags p) as [|top rest]; [reflexivity|].
  destruct (String.eqb (Local top) ""); [reflexivity|].
  destruct (negb (bool_decide (top = name))).
  - destruct (negb (String.eqb (Local top) (Local name))); reflexivity.
  - simpl. now rewrite !WriteString_err.
Qed.

(** Printing a token never looks at the sink. *)
Lemma EncodeToken_retarget (w : Writer) (p : printer) (t : Token) :
  printer_EncodeToken (retarget w p) t
  = (retarget w (fst (printer_EncodeToken p t)), snd (printer_EncodeToken p t)).
Proof.
  destruct t as [start|name|data]; simpl.
  - rewrite writeStart_retarget.
    destruct (printer_writeStart p start) as [p' [e|]]; reflexivity.
  - rewrite writeEnd_retarget.
    destruct (printer_writeEnd p name) as [p' [e|]]; reflexivity.
  - rewrite WriteString_retarget. reflexivity.
Qed.

Lemma EncodeTokens_retarget (w : Writer) (p : printer) (tokens : list Token) :
  EncodeTokens (retarget w p) tokens
  = (retarget w (fst (EncodeTokens p tokens)), snd (EncodeTokens p tokens)).
Proof.
  revert p. induction tokens as [|t tokens IH]; intros p; [reflexivity|].
  simpl. rewrite EncodeToken_retarget.
  destruct (printer_EncodeToken p t) as [p' [e|]]; simpl; [reflexivity|].
  apply IH.
Qed.

(** Printing a token leaves the remembered write error alone. *)
Lemma EncodeToken_err (p : printer) (t : Token) :
  p_err (fst (printer_EncodeToken p t)) = p_err p.
Proof.
  destruct t as [start|name|data]; simpl.
  - pose proof (writeStart_err p start) as He.
    destruct (printer_writeStart p start) as [p' [e|]]; exact He.
  - pose proof (writeEnd_err p name) as He.
    destruct (printer_writeEnd p name) as [p' [e|]]; exact He.
  - apply WriteString_err.
Qed.

Lemma EncodeTokens_err (p : printer) (tokens : list Token) :
  p_err (fst (EncodeTokens p tokens)) = p_err p.
Proof.
  revert p. induction tokens as [|t tokens IH]; intros p; [reflexivity|].
  simpl. pose proof (EncodeToken_err p t) as He.
  destruct (printer_EncodeToken p t) as [p' [e|]]; simpl in *; [exact He|].
  now rewrite IH.
Qed.

Lemma Flush_ok (p p' : printer) :
  p_err p = None -> printer_Flush p = (p', None) ->
  written (p_w p') = written (p_w p) +:+ p_buf p /\
  p_buf p' = "" /\ p_err p' = None /\ p_tags p' = p_tags p.
Proof.
  intros He. unfold printer_Flush. rewrite He.
  destruct (String.length (p_buf p) =? 0)%nat eqn:Hlen.
  - apply length_zero_eq in Hlen. intros Hf. inversion Hf; subst p'.
    rewrite Hlen, append_nil_r. auto.
  - destruct (Writer_Write (p_w p) (p_buf p)) as [w' [e|]] eqn:Hw;
      intros Hf; inversion Hf; subst p'. simpl.
    apply Write_ok in Hw. auto.
Qed.

Lemma Flush_unlimited (p : printer) :
  p_err p = None -> limit (p_w p) = None ->
  exists p', printer_Flush p = (p', None) /\ limit (p_w p') = None.
Proof.
  intros He Hw. unfold printer_Flush. rewrite He.
  destruct (String.length (p_buf p) =? 0)%nat; [eauto|].
  rewrite Write_unlimited by assumption. eauto.
Qed.
End EncoderFacts.

Section EncodeFacts.
Context `{GoLib}.

Lemma retarget_self (p : printer) : retarget (p_w p) p = p.
Proof. now destruct p. Qed.

Lemma EncodeTokens_sink (p : printer) (tokens : list Token) :
  p_w (fst (EncodeTokens p tokens)) = p_w p.
Proof.
  rewrite <- (retarget_self p) at 1. now rewrite EncodeTokens_retarget.
Qed.

(** One flush seen on two sinks: [q] writes into a sink without limit,
    [retarget w q] into [w].  When the flush into [w] succeeds, both sinks
    have gained the buffer. *)
Lemma Flush_pair (w : Writer) (q pA : printer) :
  p_err q = None -> limit (p_w q) = None ->
  printer_Flush (retarget w q) = (pA, None) ->
  exists qB,
    printer_Flush q = (qB, None) /\
    written (p_w qB) = written (p_w q) +:+ p_buf q /\
    written (p_w pA) = written w +:+ p_buf q /\
    (p_buf pA = "" /\ p_err pA = None /\ p_tags pA = p_tags q) /\
    (p_buf qB = "" /\ p_err qB = None /\ p_tags qB = p_tags q).
Proof.
  intros He Hlim HA.
  destruct (Flush_unlimited q He Hlim) as [qB [HB _]].
  exists qB. split; [exact HB|].
  apply Flush_ok in HB; [|assumption].
  apply Flush_ok in HA; [|assumption]. simpl in HA.
  destruct HA as [HA1 HA2], HB as [HB1 HB2]. auto.
Qed.

(** A flush with nothing buffered and no remembered error does nothing. *)
Lemma Flush_empty (p : printer) :
  p_err p = None -> p_buf p = "" -> printer_Flush p = (p, None).
Proof. intros He Hb. unfold printer_Flush. now rewrite He, Hb. Qed.

(** [Encode] into a sink and [xml.Marshal]: a successful [Encode] has added
    to the sink exactly the bytes [xml.Marshal] returns (for the same run
    order of the maps). *)
Lemma Encode_appends_Marshal (range : RangeOrder) (v : any) (w : Writer)
    (p : printer) :
  Encoder_Encode range (xml_NewEncoder w) v = (p, None) ->
  exists body,
    xml_Marshal range v = inr body /\ written (p_w p) = written w +:+ body.
Proof.
  unfold xml_Marshal, Encoder_Encode, printer_marshalValue.
  destruct (any_Data v) as [d|].
  - unfold printer_marshalInterface. rewrite !MarshalXML_unfold.
    set (start := mkStart (mkName "" "Data") []).
    set (qB := set_tags (mkName "" "" :: p_tags (xml_NewEncoder (mkWriter "" None)))
                 (xml_NewEncoder (mkWriter "" None))).
    change (set_tags (mkName "" "" :: p_tags (xml_NewEncoder w)) (xml_NewEncoder w))
      with (retarget w qB).
    rewrite EncodeTokens_retarget.
    pose proof (EncodeTokens_err qB (nestedTokens start (range d))) as Herr.
    pose proof (EncodeTokens_sink qB (nestedTokens start (range d))) as Hsink.
    destruct (EncodeTokens qB (nestedTokens start (range d))) as [q [e|]];
      simpl fst in *; simpl snd in *; [discriminate|].
    change (@Flush printer printer_XmlEncoder) with printer_Flush.
    destruct (printer_Flush (retarget w q)) as [pA [e|]] eqn:HA; [discriminate|].
    apply Flush_pair in HA; [|exact Herr|now rewrite Hsink].
    destruct HA as [q' [HB [HwB [HwA [[HbA [HeA HtA]] [HbB [HeB HtB]]]]]]].
    rewrite HB. rewrite HtA, HtB.
    change (length (p_tags (retarget w qB))) with (length (p_tags qB)).
    destruct (length (p_tags qB) <? length (p_tags q))%nat; [discriminate|].
    rewrite !Flush_empty by assumption.
    intros Hp. inversion Hp; subst p. simpl.
    exists (p_buf q). split; [|exact HwA].
    rewrite HwB, Hsink. reflexivity.
  - destruct (xml_marshalValue v) as [e|b]; [discriminate|].
    simpl.
    change (printer_WriteString (xml_NewEncoder w) b)
      with (retarget w (mkPrinter (mkWriter "" None) b None [])).
    change (printer_WriteString (xml_NewEncoder (mkWriter "" None)) b)
      with (mkPrinter (mkWriter "" None) b None []).
    intros HA. apply Flush_pair in HA; [|reflexivity|reflexivity].
    destruct HA as [q' [HB [HwB [HwA _]]]].
    rewrite HB. exists b. split; [|exact HwA]. now rewrite HwB.
Qed.
End EncodeFacts.

Section XmlClaims.
Context `{GoLib}.

Lemma Writer_eta (w : Writer) (s : string) :
  limit w = None -> written w = s -> w = mkWriter s None.
Proof. destruct w as [s0 l]. simpl. now intros -> ->. Qed.

(** Into a sink without limit, [Encode] succeeds whenever [xml.Marshal]
    does, and adds the marshalled bytes. *)
Lemma Encode_unlimited (range : RangeOrder) (v : any) (w : Writer)
    (body : string) :
  limit w = None -> xml_Marshal range v = inr body ->
  exists p,
    Encoder_Encode range (xml_NewEncoder w) v = (p, None) /\
    p_w p = mkWriter (written w +:+ body) None.
Proof.
  intros Hlim. unfold xml_Marshal, Encoder_Encode, printer_marshalValue.
  destruct (any_Data v) as [d|].
  - unfold printer_marshalInterface. rewrite !MarshalXML_unfold.
    set (start := mkStart (mkName "" "Data") []).
    set (qB := set_tags (mkName "" "" :: p_tags (xml_NewEncoder (mkWriter "" None)))
                 (xml_NewEncoder (mkWriter "" None))).
    change (set_tags (mkName "" "" :: p_tags (xml_NewEncoder w)) (xml_NewEncoder w))
      with (retarget w qB).
    rewrite EncodeTokens_retarget.
    pose proof (EncodeTokens_err qB (nestedTokens start (range d))) as Herr.
    pose proof (EncodeTokens_sink qB (nestedTokens start (range d))) as Hsink.
    destruct (EncodeTokens qB (nestedTokens start (range d))) as [q [e|]];
      simpl fst in *; simpl snd in *; [discriminate|].
    change (@Flush printer printer_XmlEncoder) with printer_Flush.
    destruct (Flush_unlimited (retarget w q) Herr Hlim) as [pA [HA HlimA]].
    rewrite HA. apply Flush_pair in HA; [|exact Herr|now rewrite Hsink].
    destruct HA as [q' [HB [HwB [HwA [[HbA [HeA HtA]] [HbB [HeB HtB]]]]]]].
    rewrite HB. rewrite HtA, HtB.
    change (length (p_tags (retarget w qB))) with (length (p_tags qB)).
    destruct (length (p_tags qB) <? length (p_tags q))%nat; [discriminate|].
    rewrite !Flush_empty by assumption.
    intros Hb. inversion Hb; subst body. simpl.
    eexists. split; [reflexivity|]. simpl.
    apply Writer_eta; [assumption|]. rewrite HwA, HwB, Hsink. reflexivity.
  - destruct (xml_marshalValue v) as [e|b]; [discriminate|].
    simpl.
    change (printer_WriteString (xml_NewEncoder w) b)
      with (retarget w (mkPrinter (mkWriter "" None) b None [])).
    change (printer_WriteString (xml_NewEncoder (mkWriter "" None)) b)
      with (mkPrinter (mkWriter "" None) b None []).
    destruct (Flush_unlimited
                (retarget w (mkPrinter (mkWriter "" None) b None []))
                eq_refl Hlim) as [pA [HA HlimA]].
    rewrite HA. apply Flush_pair in HA; [|reflexivity|reflexivity].
    destruct HA as [q' [HB [HwB [HwA _]]]].
    rewrite HB. intros Hb. inversion Hb; subst body.
    eexists. split; [reflexivity|].
    apply Writer_eta; [assumption|]. rewrite HwA, HwB. reflexivity.
Qed.

(** C6: a successful run of the XML renderer has added to the sink the XML
    declaration [xml.Header] followed by the bytes [xml.Marshal] gives for
    the payload, and into a sink without limit the renderer succeeds
    whenever the payload marshals; when the write of the header fails,
    the renderer returns that error with the sink as the failed write
    left it, the encoder never started. *)
Theorem xmlRender_header_then_body (range : RangeOrder) (data : any)
    (w : Writer) :
  (forall w' : Writer,
      xmlRender_Render range data w = (w', None) ->
      exists body,
        xml_Marshal range data = inr body /\
        written w' = written w +:+ xml_Header +:+ body) /\
  (forall body : string,
      limit w = None -> xml_Marshal range data = inr body ->
      xmlRender_Render range data w
        = (mkWriter (written w +:+ xml_Header +:+ body) None, None)) /\
  (forall (w1 : Writer) (e : error),
      Writer_Write w xmlHeaderBytes = (w1, Some e) ->
      xmlRender_Render range data w = (w1, Some e)).
Proof.
  split; [|split].
  - intros w'. unfold xmlRender_Render.
    destruct (Writer_Write w xmlHeaderBytes) as [w1 [e|]] eqn:Hh;
      [discriminate|].
    apply Write_ok in Hh.
    destruct (Encoder_Encode range (xml_NewEncoder w1) data) as [p oe] eqn:He.
    intros Hr. inversion Hr; subst w' oe.
    apply Encode_appends_Marshal in He as [body [Hm Hw]].
    exists body. split; [exact Hm|].
    rewrite Hw, Hh. apply append_assoc.
  - intros body Hlim Hm. unfold xmlRender_Render.
    rewrite Write_unlimited by assumption.
    destruct (Encode_unlimited range data
                (mkWriter (written w +:+ xmlHeaderBytes) None) body
                eq_refl Hm) as [p [He Hp]].
    rewrite He, Hp. simpl. now rewrite append_assoc.
  - intros w1 e Hh. unfold xmlRender_Render. now rewrite Hh.
Qed.
End XmlClaims.

(** ** The mapper on the printer: the bytes *)

Section MapperBytes.
Context `{GoLib}.

Lemma WriteString_ok (w : Writer) (b s : string) (tags : list Name) :
  printer_WriteString (mkPrinter w b None tags) s = mkPrinter w (b +:+ s) None tags.
Proof. reflexivity. Qed.

Lemma writeAttrs_ok (w : Writer) (b : string) (tags : list Name)
    (attrs : list Attr) :
  printer_writeAttrs (mkPrinter w b None tags) attrs
  = mkPrinter w (b +:+ concatBytes (map xml_attribute attrs)) None tags.
Proof.
  revert b. induction attrs as [|a attrs IH]; intros b.
  - simpl. now rewrite append_nil_r.
  - unfold printer_writeAttrs in *. simpl. rewrite WriteString_ok, IH.
    now rewrite append_assoc.
Qed.

Lemma EncodeToken_start_ok (w : Writer) (b : string) (tags : list Name)
    (start : StartElement) :
  Local (Start_Name start) <> "" ->
  printer_EncodeToken (mkPrinter w b None tags) (TStartElement start)
  = (mkPrinter w (b +:+ startTag start) None (Start_Name start :: tags), None).
Proof.
  intros Hn. apply String.eqb_neq in Hn. simpl.
  unfold printer_writeStart, startTag. rewrite Hn. unfold set_tags. simpl.
  destruct (String.eqb (Space (Start_Name start)) ""); simpl;
    rewrite !WriteString_ok, writeAttrs_ok, WriteString_ok; simpl;
    rewrite ?append_assoc; reflexivity.
Qed.

Lemma EncodeToken_end_ok (w : Writer) (b : string) (tags : list Name)
    (name : Name) :
  Local name <> "" ->
  printer_EncodeToken (mkPrinter w b None (name :: tags)) (TEndElement name)
  = (mkPrinter w (b +:+ endTag name) None tags, None).
Proof.
  intros Hn. apply String.eqb_neq in Hn. simpl.
  unfold printer_writeEnd, endTag. simpl. rewrite Hn.
  rewrite bool_decide_eq_true_2 by reflexivity. simpl.
  unfold set_tags. simpl. rewrite !WriteString_ok.
  rewrite ?append_assoc. reflexivity.
Qed.

Lemma EncodeToken_chardata_ok (w : Writer) (b : string) (tags : list Name)
    (data : string) :
  printer_EncodeToken (mkPrinter w b None tags) (TCharData data)
  = (mkPrinter w (b +:+ xml_escapeText false data) None tags, None).
Proof. reflexivity. Qed.

Lemma EncodeTokens_app {E : Type} `{XmlEncoder E} (e : E) (l1 l2 : list Token) :
  EncodeTokens e (l1 ++ l2)
  = match EncodeTokens e l1 with
    | (e', Some err) => (e', Some err)
    | (e', None) => EncodeTokens e' l2
    end.
Proof.
  revert e. induction l1 as [|t l1 IH]; intros e; [reflexivity|].
  simpl. destruct (EncodeToken e t) as [e' [err|]]; [reflexivity|]. apply IH.
Qed.

Lemma EncodeTokens_entry (w : Writer) (b : string) (tags : list Name)
    (kv : string * any) :
  strings_Title (fst kv) <> "" ->
  EncodeTokens (mkPrinter w b None tags) (entryTokens kv)
  = (mkPrinter w (b +:+ entryBytes kv) None tags, None).
Proof.
  intros Hk. unfold entryTokens.
  cbn [EncodeTokens EncodeToken printer_XmlEncoder].
  rewrite EncodeToken_start_ok by exact Hk.
  rewrite EncodeToken_chardata_ok. cbn [Start_Name].
  rewrite EncodeToken_end_ok by exact Hk.
  unfold entryBytes, startTag, endTag. simpl.
  rewrite ?append_assoc. reflexivity.
Qed.

Lemma EncodeTokens_entries (w : Writer) (b : string) (tags : list Name)
    (entries : list (string * any)) :
  (forall kv, kv ∈ entries -> strings_Title (fst kv) <> "") ->
  EncodeTokens (mkPrinter w b None tags) (concat (map entryTokens entries))
  = (mkPrinter w (b +:+ concatBytes (map entryBytes entries)) None tags, None).
Proof.
  revert b. induction entries as [|kv entries IH]; intros b Hk.
  - simpl. now rewrite append_nil_r.
  - cbn [map concat]. rewrite EncodeTokens_app.
    rewrite EncodeTokens_entry by (apply Hk; left).
    rewrite IH by (intros kv' Hin; apply Hk; now right).
    cbn [concatBytes]. now rewrite append_assoc.
Qed.

(** On the printer, with a named start element and keys whose title-cased
    form is not empty, the mapper prints the start tag, one element per
    entry and the end tag, and flushes them to the sink; the tag stack is
    as before. *)
Lemma MarshalXML_bytes (range : RangeOrder) (d : Data) (w : Writer)
    (b : string) (tags : list Name) (start : StartElement) :
  Local (Start_Name start) <> "" ->
  (forall kv, kv ∈ range d -> strings_Title (fst kv) <> "") ->
  Data_MarshalXML range d (mkPrinter w b None tags) start
  = printer_Flush
      (mkPrinter w
         (b +:+ startTag start +:+ concatBytes (map entryBytes (range d))
          +:+ endTag (Start_Name start))
         None tags).
Proof.
  intros Hs Hk. rewrite MarshalXML_unfold. unfold nestedTokens.
  cbn [EncodeTokens EncodeToken printer_XmlEncoder].
  rewrite EncodeToken_start_ok by exact Hs.
  rewrite EncodeTokens_app, EncodeTokens_entries by exact Hk.
  cbn [EncodeTokens EncodeToken printer_XmlEncoder].
  rewrite EncodeToken_end_ok by exact Hs.
  rewrite !append_assoc. reflexivity.
Qed.
(** C5: for every [Data] and every start element, the mapper offers the
    encoder the start element, then for each entry of the map (each once,
    in the order of this run) a start element named by the title-cased key,
    the [%v] text of the value as character data and the matching end
    element, then the end element of the start element; the encoder's
    first refusal is returned, and when every token was written the mapper
    ends with [Flush] and returns its result.  On the XML printer, for a
    named start element and keys whose title-cased form is not empty, that
    is the start tag, one element per entry and the end tag, flushed to the
    sink. *)
Theorem Data_MarshalXML_nested_tokens {E : Type} `{XmlEncoder E}
    (range : RangeOrder) (d : Data) (e : E) (start : StartElement) :
  range_ok range ->
  (forall (k : string) (v : any), (k, v) ∈ range d <-> d !! k = Some v) /\
  NoDup (map fst (range d)) /\
  Data_MarshalXML range d e start =
    match
      EncodeTokens e
        (TStartElement start
           :: concat
                (map (fun kv =>
                        [TStartElement
                           (mkStart (mkName "" (strings_Title (fst kv))) []);
                         TCharData (fmt_Sprint_v (snd kv));
                         TEndElement (mkName "" (strings_Title (fst kv)))])
                     (range d))
           ++ [TEndElement (Start_Name start)])
    with
    | (e', Some err) => (e', Some err)
    | (e', None) => Flush e'
    end /\
  (Local (Start_Name start) <> "" ->
   (forall kv, kv ∈ range d -> strings_Title (fst kv) <> "") ->
   forall w : Writer,
     Data_MarshalXML range d (xml_NewEncoder w) start
     = printer_Flush
         (mkPrinter w
            (startTag start +:+ concatBytes (map entryBytes (range d))
             +:+ endTag (Start_Name start))
            None [])).
Proof.
  intros Hrange. split; [|split; [|split]].
  - intros k v. rewrite (Hrange d). apply elem_of_map_to_list.
  - assert (Hp : map fst (range d) ≡ₚ map fst (map_to_list d))
      by (apply Permutation_map, Hrange).
    rewrite Hp. apply NoDup_fst_map_to_list.
  - apply MarshalXML_unfold.
  - intros Hs Hk w. unfold xml_NewEncoder.
    now rewrite MarshalXML_bytes by assumption.
Qed.
End MapperBytes.

(** * The statements on concrete inputs *)

Section Examples.
#[local] Existing Instance Ref.lib.

Lemma Ref_range_ok : range_ok Ref.range.
Proof. intros d. reflexivity. Qed.

Lemma Header_ContentType_empty_does_not_clear_witness :
  ContType (Reply_ContentType Ref.reply "text/html") <> "" /\
  Reply_Header (Reply_ContentType Ref.reply "text/html") HeaderContentType ""
    = Reply_ContentType Ref.reply "text/html" /\
  Reply_IsContentTypeSet
    (Reply_Header (Reply_ContentType Ref.reply "text/html") HeaderContentType "")
    = true.
Proof.
  assert (Hset : ContType (Reply_ContentType Ref.reply "text/html") <> "")
    by (vm_compute; discriminate).
  split; [exact Hset|].
  exact (@Header_ContentType_empty_does_not_clear Ref.lib
           (Reply_ContentType Ref.reply "text/html") Hset).
Defined.

(** C2 as stated fails: after [DisableGzip] the flag is false, and a
    [File] call for a style sheet raises it again. *)
Lemma DisableGzip_then_File_counterexample :
  gzip (Reply_DisableGzip Ref.reply) = false /\
  gzip (calls Ref.reply [CDisableGzip; CFile "site.css"]) = true.
Proof. split; vm_compute; reflexivity. Qed.

Lemma DisableGzip_holds_until_File_witness :
  noFileCall Ref.chainPlain = true /\
  gzip (calls (Reply_DisableGzip Ref.reply)
          Ref.chainPlain) = false /\
  gzip (Reply_File (Reply_DisableGzip Ref.reply) "logo.png") = false /\
  gzip (Reply_File (Reply_DisableGzip Ref.reply) "site.css") = true /\
  gzip (Reply_DisableGzip (Reply_File Ref.reply "site.css")) = false.
Proof.
  pose proof (@DisableGzip_holds_until_File Ref.lib Ref.reply
                Ref.chainPlain
                "site.css" "s.css") as (_ & Hcs & Hfile & _ & _ & Hafter).
  pose proof (@DisableGzip_holds_until_File Ref.lib Ref.reply [] "logo.png" "l.png")
    as (_ & _ & Hpng & _).
  split; [reflexivity|].
  split; [apply Hcs; reflexivity|].
  split; [rewrite Hpng; vm_compute; reflexivity|].
  split; [rewrite Hfile; vm_compute; reflexivity|].
  exact Hafter.
Defined.

(** C3 as stated fails: for callback [cb] and payload [{"a":1}] the
    renderer writes [cb({"a":1});], which is not the pinned
    [cb({"a":1}\n);]. *)
Lemma jsonp_pinned_newline_counterexample :
  written (fst (jsonpRender_Render "cb" Ref.payload_a1 Ref.sink))
    = "cb(" +:+ Ref.json_a1 +:+ ");" /\
  String.eqb
    (written (fst (jsonpRender_Render "cb" Ref.payload_a1 Ref.sink)))
    ("cb(" +:+ Ref.json_a1 +:+ Ref.newline +:+ ");") = false.
Proof. split; vm_compute; reflexivity. Qed.

Lemma jsonpRender_exact_bytes_witness :
  json_Marshal Ref.payload_a1 = inr Ref.json_a1 /\
  jsonpRender_Render "" Ref.payload_a1 Ref.sink = Writer_Write Ref.sink Ref.json_a1 /\
  jsonpRender_Render "cb" Ref.payload_a1 Ref.sink
    = (mkWriter ("cb(" +:+ Ref.json_a1 +:+ ");") None, None).
Proof.
  assert (Hm : json_Marshal Ref.payload_a1 = inr Ref.json_a1)
    by (vm_compute; reflexivity).
  destruct (@jsonpRender_exact_bytes Ref.lib "cb" Ref.payload_a1 Ref.sink) as [Hok _].
  destruct (Hok Ref.json_a1 Hm) as (Hempty & _ & Hcb).
  split; [exact Hm|]. split; [exact Hempty|].
  rewrite Hcb; [reflexivity | discriminate | reflexivity].
Defined.

Lemma ContentType_first_write_wins_witness :
  ContType Ref.reply = "" /\
  ContType (Reply_ContentType Ref.reply "Text/HTML") = "text/html" /\
  ContType (Reply_ContentType
              (calls (Reply_ContentType Ref.reply "Text/HTML")
                 Ref.chainJSON)
              "application/json") = "text/html".
Proof.
  assert (Hunset : ContType Ref.reply = "") by reflexivity.
  destruct (@ContentType_first_write_wins Ref.lib Ref.reply "Text/HTML"
              "application/json" Ref.chainJSON Hunset)
    as [Hfirst Hlater].
  split; [exact Hunset|]. split; [rewrite Hfirst; vm_compute; reflexivity|].
  destruct Hlater as [_ Hkept]; [vm_compute; discriminate|].
  rewrite Hkept. vm_compute. reflexivity.
Defined.

Lemma Data_MarshalXML_nested_tokens_witness :
  range_ok Ref.range /\
  Data_MarshalXML Ref.range Ref.data_name (xml_NewEncoder Ref.sink) Ref.root
    = (mkPrinter (mkWriter "<Root><Name>x</Name></Root>" None) "" None [], None).
Proof.
  split; [exact Ref_range_ok|].
  destruct (@Data_MarshalXML_nested_tokens Ref.lib _ _ Ref.range Ref.data_name
              (xml_NewEncoder Ref.sink) Ref.root Ref_range_ok)
    as (_ & _ & Hrun & _).
  rewrite Hrun. vm_compute. reflexivity.
Defined.

Lemma xmlRender_header_then_body_witness :
  xml_Marshal Ref.range Ref.payload_name = inr "<Data><Name>x</Name></Data>" /\
  xmlRender_Render Ref.range Ref.payload_name Ref.sink
    = (mkWriter (xml_Header +:+ "<Data><Name>x</Name></Data>") None, None) /\
  xmlRender_Render Ref.range Ref.payload_name Ref.smallSink
    = (mkWriter "<?xml vers" (Some (O, errorString "sink is full")),
       Some (errorString "sink is full")).
Proof.
  assert (Hm : xml_Marshal Ref.range Ref.payload_name
               = inr "<Data><Name>x</Name></Data>")
    by (vm_compute; reflexivity).
  destruct (@xmlRender_header_then_body Ref.lib Ref.range Ref.payload_name Ref.sink)
    as (_ & Hok & _).
  destruct (@xmlRender_header_then_body Ref.lib Ref.range Ref.payload_name Ref.smallSink)
    as (_ & _ & Hfail).
  split; [exact Hm|]. split.
  - exact (Hok _ eq_refl Hm).
  - apply Hfail. vm_compute. reflexivity.
Defined.

Lemma binaryRender_directory_and_missing_witness :
  binaryRender_Render Ref.fs "/srv/app" None Ref.sink
    = (Ref.sink, Some (errorString "'/srv/app' is a directory")) /\
  binaryRender_Render Ref.fs "/srv/app/missing.txt" None Ref.sink
    = (Ref.sink,
       Some (PathError "open" "/srv/app/missing.txt"
               (errorString "no such file or directory"))).
Proof.
  destruct (binaryRender_directory_and_missing Ref.fs "/srv/app" Ref.sink)
    as [Hdir _].
  destruct (binaryRender_directory_and_missing Ref.fs "/srv/app/missing.txt"
              Ref.sink) as [_ Hmissing].
  split.
  - exact (Hdir _ _ eq_refl eq_refl eq_refl).
  - exact (Hmissing _ eq_refl).
Defined.

Lemma ContType_preserved_once_set_witness :
  ContType (Reply_ContentType Ref.reply "text/plain") <> "" /\
  ContType (calls (Reply_ContentType Ref.reply "text/plain")
              Ref.chainTypes)
    = "text/plain".
Proof.
  assert (Hset : ContType (Reply_ContentType Ref.reply "text/plain") <> "")
    by (vm_compute; discriminate).
  destruct (@ContType_preserved_once_set Ref.lib
              (Reply_ContentType Ref.reply "text/plain") Hset)
    as (_ & Hcalls & _).
  split; [exact Hset|]. rewrite Hcalls. vm_compute. reflexivity.
Defined.
End Examples.

(** * Further properties of the builder *)

Section ChainFacts.
Context `{GoLib}.

Ltac builder_cases :=
  simpl; autounfold with builder; unfold Reply_ContentType;
  repeat match goal with
    | |- context [if ?b then _ else _] => destruct b
    | |- context [match cookies ?x with _ => _ end] => destruct (cookies x)
    end.

Lemma default_last_cons {B : Type} (a z : B) (l : list B) :
  default a (last (z :: l)) = default z (last l).
Proof.
  revert a z. induction l as [|y l IH]; intros a z; [reflexivity|].
  rewrite last_cons_cons. rewrite (IH a y). symmetry. apply IH.
Qed.

(** A field that every call either leaves alone or overwrites holds, after a
    chain, what the last overwriting call put there. *)
Lemma calls_last_write {B : Type} (g : Reply -> B) (upd : Call -> option B)
    (I : Reply -> Prop) :
  (forall r c, I r -> I (call r c) /\ g (call r c) = default (g r) (upd c)) ->
  forall cs r, I r -> g (calls r cs) = default (g r) (last (omap upd cs)).
Proof.
  intros Hstep cs. induction cs as [|c cs IH]; intros r Hr; [reflexivity|].
  destruct (Hstep r c Hr) as [Hr' Hg].
  change (calls r (c :: cs)) with (calls (call r c) cs).
  rewrite IH by assumption. rewrite Hg.
  change (omap upd (c :: cs))
    with (match upd c with Some y => y :: omap upd cs | None => omap upd cs end).
  destruct (upd c) as [z|]; simpl; [|reflexivity].
  now rewrite default_last_cons.
Qed.

Lemma call_Code (r : Reply) (c : Call) :
  Code (call r c) = default (Code r) (statusOf c).
Proof. destruct c; builder_cases; reflexivity. Qed.

(** X1: the status after a chain of builder calls is the one assigned by
    the last call of the chain that assigns a status ([Status], a status
    shortcut, [Redirect] with 302, [RedirectWithStatus]); a chain without
    such a call leaves the status as it was. *)
Theorem status_last_write_wins (r : Reply) (cs : list Call) :
  Code (calls r cs) = default (Code r) (last (omap statusOf cs)).
Proof.
  apply (calls_last_write Code statusOf (fun _ => True)); [|exact I].
  intros r' c _. split; [exact I | apply call_Code].
Qed.

Lemma call_done (r : Reply) (c : Call) :
  done (call r c) = done r || isDoneCall c.
Proof.
  destruct c; builder_cases; simpl;
    rewrite ?orb_false_r, ?orb_true_r; reflexivity.
Qed.

Lemma call_redirect (r : Reply) (c : Call) :
  redirect (call r c) = redirect r || isRedirectCall c.
Proof.
  destruct c; builder_cases; simpl;
    rewrite ?orb_false_r, ?orb_true_r; reflexivity.
Qed.

(** X2: the done flag and the redirect flag are only ever raised: after a
    chain the done flag is set exactly when it was set before or the chain
    holds a [Done] call, the redirect flag exactly when it was set before
    or the chain holds a [Redirect] or [RedirectWithStatus] call; no
    builder call lowers either. *)
Theorem done_and_redirect_only_raised (r : Reply) (cs : list Call) :
  done (calls r cs) = done r || existsb isDoneCall cs /\
  redirect (calls r cs) = redirect r || existsb isRedirectCall cs.
Proof.
  revert r. induction cs as [|c cs IH]; intros r.
  - simpl. now rewrite !orb_false_r.
  - change (calls r (c :: cs)) with (calls (call r c) cs).
    destruct (IH (call r c)) as [Hd Hr]. rewrite Hd, Hr.
    rewrite call_done, call_redirect. simpl. now rewrite !orb_assoc.
Qed.

Lemma call_path (r : Reply) (c : Call) :
  path (call r c) = default (path r) (redirectTarget c).
Proof. destruct c; builder_cases; reflexivity. Qed.

(** X3: the redirect target after a chain is the URL of the last
    [Redirect] or [RedirectWithStatus] call of the chain, and is unchanged
    by a chain without one. *)
Theorem redirect_target_last_wins (r : Reply) (cs : list Call) :
  path (calls r cs) = default (path r) (last (omap redirectTarget cs)).
Proof.
  apply (calls_last_write path redirectTarget (fun _ => True)); [|exact I].
  intros r' c _. split; [exact I | apply call_path].
Qed.

Lemma call_cookies (r : Reply) (c : Call) :
  default [] (cookies (call r c))
  = default [] (cookies r) ++ option_list (cookieOf c).
Proof.
  destruct c;
    try (builder_cases; simpl; rewrite ?app_nil_r; reflexivity).
  destruct r as [? ? ? ? ? ? ? ? ? [l|] ?]; reflexivity.
Qed.

Lemma call_cookies_same (r : Reply) (c : Call) :
  cookieOf c = None -> cookies (call r c) = cookies r.
Proof. destruct c; try discriminate; intros _; builder_cases; reflexivity. Qed.

Lemma call_cookies_nil (r : Reply) (c : Call) :
  cookies (call r c) = None <-> cookies r = None /\ cookieOf c = None.
Proof.
  destruct (cookieOf c) as [k|] eqn:Hc.
  - destruct c; try discriminate Hc.
    destruct r as [? ? ? ? ? ? ? ? ? [l|] ?]; simpl; split;
      try discriminate; intros [_ Hn]; discriminate.
  - rewrite call_cookies_same by assumption. tauto.
Qed.

(** X4: cookies are append-only: after a chain the cookie list is the list
    before followed by the cookies of the chain's [Cookie] calls in call
    order; and the list is nil afterwards only if it was nil before and the
    chain holds no [Cookie] call. *)
Theorem cookies_append_only (r : Reply) (cs : list Call) :
  default [] (cookies (calls r cs)) = default [] (cookies r) ++ omap cookieOf cs /\
  (cookies (calls r cs) = None <-> cookies r = None /\ omap cookieOf cs = []).
Proof.
  revert r. induction cs as [|c cs IH]; intros r.
  - simpl. rewrite app_nil_r. tauto.
  - change (calls r (c :: cs)) with (calls (call r c) cs).
    destruct (IH (call r c)) as [Hl Hn]. split.
    + rewrite Hl, call_cookies, <- app_assoc. f_equal.
      change (omap cookieOf (c :: cs))
        with (match cookieOf c with
              | Some y => y :: omap cookieOf cs
              | None => omap cookieOf cs
              end).
      now destruct (cookieOf c).
    + rewrite Hn, call_cookies_nil.
      change (omap cookieOf (c :: cs))
        with (match cookieOf c with
              | Some y => y :: omap cookieOf cs
              | None => omap cookieOf cs
              end).
      destruct (cookieOf c); split; intros Hx; try tauto.
      * destruct Hx as [[_ Hx] _]. discriminate.
      * destruct Hx as [_ Hx]. discriminate.
Qed.
End ChainFacts.

Section FrameFacts.
Context `{GoLib}.

Ltac builder_cases :=
  simpl; autounfold with builder; unfold Reply_ContentType;
  repeat match goal with
    | |- context [if ?b then _ else _] => destruct b
    | |- context [match cookies ?x with _ => _ end] => destruct (cookies x)
    end.

Lemma call_settings (r : Reply) (c : Call) :
  BaseDir (ctx (call r c)) = BaseDir (ctx r) /\
  SecureJSONPrefix (ctx (call r c)) = SecureJSONPrefix (ctx r) /\
  body (call r c) = body r.
Proof. destruct c; builder_cases; auto. Qed.

Lemma call_Rdr (r : Reply) (c : Call) :
  Rdr (call r c)
  = default (Rdr r)
      (attachedBy (BaseDir (ctx r)) (SecureJSONPrefix (ctx r)) c).
Proof.
  destruct c; simpl; unfold resolveAgainst;
    try (destruct (filepath_IsAbs file)); builder_cases; reflexivity.
Qed.

(** X5: the renderer after a chain of builder calls is the one attached by
    the last call of the chain that attaches a renderer, with its
    arguments: [JSON], [JSONSecure] (carrying the configured prefix),
    [JSONP], [XML], [Text], [Binary], [FromReader], [File], [FileDownload]
    and [FileInline] (carrying the path resolved against the base
    directory), the four [HTML] calls (carrying no template) and [Render];
    a new renderer replaces the previous one, and the other calls leave it
    alone. *)
Theorem renderer_last_attach_wins (r : Reply) (cs : list Call) :
  Rdr (calls r cs)
  = default (Rdr r)
      (last (omap (attachedBy (BaseDir (ctx r)) (SecureJSONPrefix (ctx r))) cs)).
Proof.
  apply (calls_last_write Rdr
           (attachedBy (BaseDir (ctx r)) (SecureJSONPrefix (ctx r)))
           (fun r' => BaseDir (ctx r') = BaseDir (ctx r) /\
                      SecureJSONPrefix (ctx r') = SecureJSONPrefix (ctx r)));
    [|split; reflexivity].
  intros r' c [Hb Hp]. destruct (call_settings r' c) as (Hb' & Hp' & _).
  split; [split; congruence|].
  rewrite call_Rdr, Hb, Hp. reflexivity.
Qed.

Lemma call_err (r : Reply) (c : Call) :
  err (call r c) = default (err r) (errorOf c).
Proof. destruct c; builder_cases; reflexivity. Qed.

(** X6: no chain of builder calls changes the body buffer [Body()]
    returns, the application's base directory or the secure-JSON prefix;
    and the attached error after a chain is the argument of the chain's
    last [Error] call, untouched by every other call. *)
Theorem body_settings_error_frame (r : Reply) (cs : list Call) :
  Reply_Body (calls r cs) = Reply_Body r /\
  BaseDir (ctx (calls r cs)) = BaseDir (ctx r) /\
  SecureJSONPrefix (ctx (calls r cs)) = SecureJSONPrefix (ctx r) /\
  err (calls r cs) = default (err r) (last (omap errorOf cs)).
Proof.
  split; [|split; [|split]].
  - revert r. induction cs as [|c cs IH]; intros r; [reflexivity|].
    change (calls r (c :: cs)) with (calls (call r c) cs).
    rewrite IH. apply call_settings.
  - revert r. induction cs as [|c cs IH]; intros r; [reflexivity|].
    change (calls r (c :: cs)) with (calls (call r c) cs).
    rewrite IH. apply call_settings.
  - revert r. induction cs as [|c cs IH]; intros r; [reflexivity|].
    change (calls r (c :: cs)) with (calls (call r c) cs).
    rewrite IH. apply call_settings.
  - apply (calls_last_write err errorOf (fun _ => True)); [|exact I].
    intros r' c _. split; [exact I | apply call_err].
Qed.

Lemma call_ctx (r : Reply) (c : Call) :
  touchesHeaders c = false -> ctx (call r c) = ctx r.
Proof.
  destruct c; simpl; intros Hc; try discriminate Hc;
    try (apply negb_false_iff in Hc);
    autounfold with builder; rewrite ?Hc; unfold Reply_ContentType;
    repeat match goal with
      | |- context [if ?b then _ else _] => destruct b
      | |- context [match cookies ?x with _ => _ end] => destruct (cookies x)
      end; reflexivity.
Qed.

(** X7: the response headers are reached only through [Header] and
    [HeaderAppend] with a key other than the exact reserved key
    [Content-Type], and through [FileDownload] and [FileInline]: a chain
    of other calls, [Header] and [HeaderAppend] with the reserved key
    among them, leaves the context with its header map exactly as it
    was. *)
Theorem headers_untouched_by_other_calls (r : Reply) (cs : list Call) :
  forallb (fun c => negb (touchesHeaders c)) cs = true ->
  ctx (calls r cs) = ctx r.
Proof.
  revert r. induction cs as [|c cs IH]; intros r Hcs; [reflexivity|].
  simpl in Hcs. apply andb_prop in Hcs as [Hc Hcs].
  change (calls r (c :: cs)) with (calls (call r c) cs).
  rewrite IH by assumption. apply call_ctx. now apply negb_true_iff.
Qed.
End FrameFacts.

(** ** Headers *)

Section HeaderFacts.
Context `{GoLib}.

Lemma Header_other_key (r : Reply) (key value : string) :
  key <> HeaderContentType ->
  Reply_Header r key value
  = set_Res_Header
      (if (String.length value =? 0)%nat
       then Header_Del (Res_Header (ctx r)) key
       else Header_Set (Res_Header (ctx r)) key value) r.
Proof.
  intros Hk. apply String.eqb_neq in Hk. unfold Reply_Header. rewrite Hk.
  now destruct (String.length value =? 0)%nat.
Qed.

Lemma HeaderAppend_other_key (r : Reply) (key value : string) :
  key <> HeaderContentType ->
  Reply_HeaderAppend r key value
  = set_Res_Header (Header_Add (Res_Header (ctx r)) key value) r.
Proof.
  intros Hk. apply String.eqb_neq in Hk. unfold Reply_HeaderAppend.
  now rewrite Hk.
Qed.

(** X8: for a key other than the reserved one, [Header] with a non-empty
    value makes that value the only value of the header, [Header] with an
    empty value removes the header, and [HeaderAppend] adds its value (an
    empty one too) after the values already there; each reads back under
    the canonical spelling of the key, and every other header is left as it
    was. *)
Theorem Header_set_delete_append (r : Reply) (key value other : string) :
  key <> HeaderContentType ->
  (value <> "" ->
   Res_Header (ctx (Reply_Header r key value)) !! CanonicalMIMEHeaderKey key
     = Some [value]) /\
  Res_Header (ctx (Reply_Header r key "")) !! CanonicalMIMEHeaderKey key = None /\
  Res_Header (ctx (Reply_HeaderAppend r key value)) !! CanonicalMIMEHeaderKey key
    = Some (default [] (Res_Header (ctx r) !! CanonicalMIMEHeaderKey key)
            ++ [value]) /\
  (other <> CanonicalMIMEHeaderKey key ->
   Res_Header (ctx (Reply_Header r key value)) !! other
     = Res_Header (ctx r) !! other /\
   Res_Header (ctx (Reply_HeaderAppend r key value)) !! other
     = Res_Header (ctx r) !! other).
Proof.
  intros Hk. rewrite !Header_other_key, HeaderAppend_other_key by assumption.
  simpl. split; [|split; [|split]].
  - intros Hv. apply length_zero_neq in Hv. rewrite Hv.
    unfold Header_Set. apply lookup_insert_eq.
  - unfold Header_Del. apply lookup_delete_eq.
  - unfold Header_Add. apply lookup_insert_eq.
  - intros Ho. split.
    + destruct (String.length value =? 0)%nat.
      * unfold Header_Del. now apply lookup_delete_ne.
      * unfold Header_Set. now apply lookup_insert_ne.
    + unfold Header_Add. now apply lookup_insert_ne.
Qed.

(** X9: header names are matched by their canonical spelling: of two
    [Header] calls in a row whose keys (neither the reserved one) have the
    same canonical form, only the second counts, whatever the values,
    empty or not. *)
Theorem Header_later_call_wins (r : Reply) (key key' value value' : string) :
  key <> HeaderContentType -> key' <> HeaderContentType ->
  CanonicalMIMEHeaderKey key = CanonicalMIMEHeaderKey key' ->
  Reply_Header (Reply_Header r key value) key' value' = Reply_Header r key' value'.
Proof.
  intros Hk Hk' Hc. rewrite !Header_other_key by assumption.
  unfold set_Res_Header. simpl. f_equal. f_equal.
  unfold Header_Del, Header_Set. rewrite Hc.
  destruct (String.length value' =? 0)%nat, (String.length value =? 0)%nat.
  - apply delete_delete_eq.
  - apply delete_insert_eq.
  - apply insert_delete_eq.
  - apply insert_insert_eq.
Qed.

(** X10: the reserved key is recognised by exact spelling only.  [Header]
    with a key that differs from [Content-Type] but has that canonical
    form (such as [content-type]) and a non-empty value does not go through
    [ContentType]: it writes the raw [Content-Type] header and leaves the
    builder's content type, set or not, as it was. *)
Theorem Header_other_spelling_of_reserved_key (r : Reply) (key value : string) :
  key <> HeaderContentType ->
  CanonicalMIMEHeaderKey key = HeaderContentType ->
  value <> "" ->
  ContType (Reply_Header r key value) = ContType r /\
  Reply_IsContentTypeSet (Reply_Header r key value) = Reply_IsContentTypeSet r /\
  Res_Header (ctx (Reply_Header r key value)) !! HeaderContentType = Some [value].
Proof.
  intros Hk Hc Hv. rewrite Header_other_key by assumption.
  apply length_zero_neq in Hv. rewrite Hv.
  split; [reflexivity|]. split; [reflexivity|].
  simpl. unfold Header_Set. rewrite Hc. apply lookup_insert_eq.
Qed.

Lemma prefixed_not_empty (c : ascii) (s t : string) :
  (String.length (String c s +:+ t) =? 0)%nat = false.
Proof. now rewrite append_cons. Qed.

(** X11: [FileDownload] sets the [Content-Disposition] header to
    [attachment; filename=<name>] and [FileInline] to
    [inline; filename=<name>], replacing any earlier value; both then behave
    as [File]: the renderer is the path-based binary renderer for the
    path resolved against the base directory, the gzip flag is the
    heuristic's answer for that path, and the content type is not
    touched. *)
Theorem FileDownload_FileInline_disposition (r : Reply) (file name : string) :
  (Res_Header (ctx (Reply_FileDownload r file name)) !! HeaderContentDisposition
     = Some ["attachment; filename=" +:+ name] /\
   Rdr (Reply_FileDownload r file name)
     = Some (binaryRender (resolvedFile r file) None) /\
   gzip (Reply_FileDownload r file name)
     = util_IsGzipWorthForFile (resolvedFile r file) /\
   ContType (Reply_FileDownload r file name) = ContType r) /\
  (Res_Header (ctx (Reply_FileInline r file name)) !! HeaderContentDisposition
     = Some ["inline; filename=" +:+ name] /\
   Rdr (Reply_FileInline r file name)
     = Some (binaryRender (resolvedFile r file) None) /\
   gzip (Reply_FileInline r file name)
     = util_IsGzipWorthForFile (resolvedFile r file) /\
   ContType (Reply_FileInline r file name) = ContType r).
Proof.
  assert (Hcd : HeaderContentDisposition <> HeaderContentType) by discriminate.
  split.
  - unfold Reply_FileDownload. rewrite Header_other_key by assumption.
    rewrite prefixed_not_empty. unfold Reply_File, resolvedFile. simpl.
    destruct (filepath_IsAbs file); simpl;
      (split; [apply lookup_insert_eq | repeat split]).
  - unfold Reply_FileInline. rewrite Header_other_key by assumption.
    rewrite prefixed_not_empty. unfold Reply_File, resolvedFile. simpl.
    destruct (filepath_IsAbs file); simpl;
      (split; [apply lookup_insert_eq | repeat split]).
Qed.
End HeaderFacts.

(** ** Content types *)

Section ContentTypeFacts.
Context `{GoLib}.

Lemma toLowerByte_ascii (c : ascii) :
  (nat_of_ascii c <? 128)%nat = true ->
  (nat_of_ascii (toLowerByte c) <? 128)%nat = true /\
  isUpper (toLowerByte c) = false /\
  toLowerByte (toLowerByte c) = toLowerByte c.
Proof.
  destruct c as [[] [] [] [] [] [] [] []]; vm_compute; intros Hc;
    try discriminate Hc; repeat split.
Qed.

Lemma mapBytes_toLower_ascii (s : string) :
  isASCII s = true ->
  isASCII (mapBytes toLowerByte s) = true /\
  allBytes (fun c => negb (isUpper c)) (mapBytes toLowerByte s) = true /\
  mapBytes toLowerByte (mapBytes toLowerByte s) = mapBytes toLowerByte s /\
  String.length (mapBytes toLowerByte s) = String.length s.
Proof.
  unfold isASCII. induction s as [|c s IH]; simpl; [auto|].
  intros Hs. apply andb_prop in Hs as [Hc Hs].
  destruct (IH Hs) as (IH1 & IH2 & IH3 & IH4).
  destruct (toLowerByte_ascii c Hc) as (Hc1 & Hc2 & Hc3).
  rewrite Hc1, Hc2, Hc3, IH1, IH2, IH3, IH4. auto.
Qed.

(** X12: content types are compared without regard to ASCII case: on a
    builder without a content type and an ASCII value, [ContentType] stores
    a value of the same length with no upper-case letter in it, and calling
    it with the value or with its lower-cased form gives the same
    builder. *)
Theorem ContentType_ascii_case_folded (r : Reply) (v : string) :
  ContType r = "" -> isASCII v = true ->
  String.length (ContType (Reply_ContentType r v)) = String.length v /\
  allBytes (fun c => negb (isUpper c)) (ContType (Reply_ContentType r v)) = true /\
  Reply_ContentType r (strings_ToLower v) = Reply_ContentType r v.
Proof.
  intros Hr Hv. rewrite !ContentType_unset by assumption.
  destruct (mapBytes_toLower_ascii v Hv) as (H1 & H2 & H3 & H4).
  unfold strings_ToLower. rewrite Hv, H1, H3. simpl. auto.
Qed.

(** X13: the typed builder calls set the content type of their format
    exactly when none is set: after [JSON] and [JSONSecure] the content
    type is [application/json; charset=utf-8], after [JSONP]
    [application/javascript; charset=utf-8], after [XML]
    [application/xml; charset=utf-8], after [Text]
    [text/plain; charset=utf-8] and after [HTMLlf]
    [text/html; charset=utf-8] if the builder had none, and the earlier
    content type otherwise; either way [IsContentTypeSet] answers true
    afterwards. *)
Theorem typed_builders_default_content_type (r : Reply) (data : any)
    (callback format layout filename : string) (values : list any)
    (args : Data) :
  let after (mime : string) : string :=
    if String.eqb (ContType r) "" then mime else ContType r in
  (ContType (Reply_JSON r data) = after "application/json; charset=utf-8" /\
   ContType (Reply_JSONSecure r data) = after "application/json; charset=utf-8" /\
   ContType (Reply_JSONP r data callback)
     = after "application/javascript; charset=utf-8" /\
   ContType (Reply_XML r data) = after "application/xml; charset=utf-8" /\
   ContType (Reply_Text r format values) = after "text/plain; charset=utf-8" /\
   ContType (Reply_HTMLlf r layout filename args)
     = after "text/html; charset=utf-8") /\
  (Reply_IsContentTypeSet (Reply_JSON r data) = true /\
   Reply_IsContentTypeSet (Reply_JSONSecure r data) = true /\
   Reply_IsContentTypeSet (Reply_JSONP r data callback) = true /\
   Reply_IsContentTypeSet (Reply_XML r data) = true /\
   Reply_IsContentTypeSet (Reply_Text r format values) = true /\
   Reply_IsContentTypeSet (Reply_HTMLlf r layout filename args) = true).
Proof.
  intros after. subst after. unfold Reply_IsContentTypeSet.
  autounfold with builder. unfold Reply_ContentType.
  destruct (ContType r) as [|c s] eqn:Hct; simpl.
  - repeat split.
  - rewrite Hct. repeat split.
Qed.
End ContentTypeFacts.

(** ** Renderers *)

Section RendererFacts.
Context `{GoLib}.

(** X14: the secure-JSON renderer writes the prefix before it marshals.
    Into a sink without limit, a payload that marshals gives the prefix,
    the JSON text and a newline; a payload that does not marshal gives the
    marshal error with the prefix already in the sink.  When the write of
    the prefix fails, that error is returned and nothing else is
    written. *)
Theorem secureJSONRender_prefix_first (Prefix : string) (data : any)
    (w : Writer) :
  (forall jsonBytes : string,
      limit w = None -> json_Marshal data = inr jsonBytes ->
      secureJSONRender_Render Prefix data w
        = (mkWriter (written w +:+ Prefix +:+ jsonBytes
                     +:+ String "010"%char EmptyString) None, None)) /\
  (forall e : error,
      limit w = None -> json_Marshal data = inl e ->
      secureJSONRender_Render Prefix data w
        = (mkWriter (written w +:+ Prefix) None, Some e)) /\
  (forall (w1 : Writer) (e : error),
      Writer_Write w Prefix = (w1, Some e) ->
      secureJSONRender_Render Prefix data w = (w1, Some e)).
Proof.
  unfold secureJSONRender_Render, json_Encode. split; [|split].
  - intros b Hw Hm. rewrite Write_unlimited by assumption. rewrite Hm.
    rewrite Write_unlimited by reflexivity. simpl. now rewrite append_assoc.
  - intros e Hw Hm. rewrite Write_unlimited by assumption. now rewrite Hm.
  - intros w1 e Hp. now rewrite Hp.
Qed.

(** X15: the JSON renderer writes what the JSONP renderer writes without a
    callback, followed by one newline; a payload that does not marshal
    makes both return the marshal error with the sink untouched. *)
Theorem jsonRender_is_jsonp_plus_newline (data : any) (w : Writer) :
  (forall jsonBytes : string,
      limit w = None -> json_Marshal data = inr jsonBytes ->
      jsonRender_Render data w
        = (mkWriter (written w +:+ jsonBytes +:+ String "010"%char EmptyString)
                    None, None) /\
      written (fst (jsonRender_Render data w))
        = written (fst (jsonpRender_Render "" data w))
          +:+ String "010"%char EmptyString) /\
  (forall e : error,
      json_Marshal data = inl e ->
      jsonRender_Render data w = (w, Some e) /\
      jsonpRender_Render "" data w = (w, Some e)).
Proof.
  unfold jsonRender_Render, json_Encode, jsonpRender_Render. split.
  - intros b Hw Hm. rewrite Hm. simpl.
    rewrite !Write_unlimited by assumption. simpl.
    split; [reflexivity|]. now rewrite append_assoc.
  - intros e Hm. now rewrite Hm.
Qed.

(** X16: the path-based binary renderer copies a regular file: into a sink
    without limit it adds the file's bytes and returns the read error, if
    any; a [Stat] failure is returned with the sink untouched.  With a
    reader set, the path and the file system play no part: the reader is
    copied. *)
Theorem binaryRender_regular_file (fs : FileSystem) (Path : string) (w : Writer) :
  (forall (file : File) (fi : FileInfo),
      fs Path = inr file -> File_Stat file = inr fi -> IsDir fi = false ->
      limit w = None ->
      binaryRender_Render fs Path None w
        = (mkWriter (written w +:+ rd_bytes (File_Reader file)) None,
           rd_err (File_Reader file))) /\
  (forall (file : File) (e : error),
      fs Path = inr file -> File_Stat file = inl e ->
      binaryRender_Render fs Path None w = (w, Some e)) /\
  (forall (rd : Reader) (fs' : FileSystem) (Path' : string),
      binaryRender_Render fs Path (Some rd) w = io_Copy w rd /\
      binaryRender_Render fs' Path' (Some rd) w
        = binaryRender_Render fs Path (Some rd) w).
Proof.
  unfold binaryRender_Render. split; [|split].
  - intros file fi Hopen Hstat Hdir Hw. rewrite Hopen, Hstat, Hdir.
    unfold io_Copy. now rewrite Write_unlimited by assumption.
  - intros file e Hopen Hstat. now rewrite Hopen, Hstat.
  - intros rd fs' Path'. split; reflexivity.
Qed.

(** X17: what [Binary] and [Text] without values attach renders their
    argument verbatim: the renderer [Binary(b)] leaves on the builder hands
    the sink exactly [b], and the one [Text(s)] leaves hands it exactly
    [s], no formatting applied, whatever the map order and the file
    system. *)
Theorem Binary_and_plain_Text_render_verbatim (r : Reply) (b s : string)
    (range : RangeOrder) (fs : FileSystem) (w : Writer) :
  (exists rdr, Rdr (Reply_Binary r b) = Some rdr /\
               Render_Render range fs rdr w = Writer_Write w b) /\
  (exists rdr, Rdr (Reply_Text r s []) = Some rdr /\
               Render_Render range fs rdr w = Writer_Write w s).
Proof.
  split.
  - eexists. split; [reflexivity|]. simpl. unfold io_Copy. simpl.
    now destruct (Writer_Write w b) as [w' [e|]].
  - eexists. split; [reflexivity|]. reflexivity.
Qed.

(** X18: the four [HTML] builder calls attach a renderer without a
    template: rendering it as it is fails with [template is nil] and
    writes nothing, whatever the layout, the file name and the view
    arguments. *)
Theorem HTML_renderer_needs_template (r : Reply) (layout filename : string)
    (args : Data) (range : RangeOrder) (fs : FileSystem) (w : Writer) :
  Forall
    (fun r' =>
       exists rdr, Rdr r' = Some rdr /\
         Render_Render range fs rdr w = (w, Some (errorString "template is nil")))
    [Reply_HTML r args; Reply_HTMLl r layout args; Reply_HTMLf r filename args;
     Reply_HTMLlf r layout filename args].
Proof.
  repeat constructor; eexists; (split; [reflexivity|reflexivity]).
Qed.
End RendererFacts.

(** ** XML of a [Data] *)

Section XmlDataFacts.
Context `{GoLib}.





(** X20: a [Data] whose keys all have a non-empty title-cased form
    marshals to the element [<Data>] holding one element per entry, named
    by the title-cased key around the escaped [%v] text of the value, in
    the order the map is visited; into a sink without limit the XML
    renderer writes the XML declaration and then that element. *)
Theorem xml_Data_marshals_to_elements (range : RangeOrder) (v : any) (d : Data)
    (w : Writer) :
  any_Data v = Some d ->
  (forall kv, kv ∈ range d -> strings_Title (fst kv) <> "") ->
  xml_Marshal range v
    = inr ("<Data>" +:+ concatBytes (map entryBytes (range d)) +:+ "</Data>") /\
  (limit w = None ->
   xmlRender_Render range v w
     = (mkWriter (written w +:+ xml_Header +:+ "<Data>"
                  +:+ concatBytes (map entryBytes (range d)) +:+ "</Data>")
                 None, None)).
Proof.
  intros Hd Hk.
  assert (Hm : xml_Marshal range v
               = inr ("<Data>" +:+ concatBytes (map entryBytes (range d))
                      +:+ "</Data>")).
  { unfold xml_Marshal, Encoder_Encode, printer_marshalValue,
      printer_marshalInterface. rewrite Hd.
    change (set_tags (mkName "" "" :: p_tags (xml_NewEncoder (mkWriter "" None)))
              (xml_NewEncoder (mkWriter "" None)))
      with (mkPrinter (mkWriter "" None) "" None [mkName "" ""]).
    rewrite MarshalXML_bytes by (try discriminate; exact Hk).
    change (startTag (mkStart (mkName "" "Data") [])) with ("<Data" +:+ ">").
    change (endTag (Start_Name (mkStart (mkName "" "Data") []))) with "</Data>".
    unfold printer_Flush. cbn [p_err p_buf p_w p_tags].
    change ("" +:+ ?x) with x.
    change ("<Data" +:+ ">") with "<Data>".
    rewrite prefixed_not_empty, Write_unlimited by reflexivity.
    reflexivity. }
  split; [exact Hm|]. intros Hw. unfold xmlRender_Render.
  rewrite Write_unlimited by assumption.
  destruct (Encode_unlimited range v
              (mkWriter (written w +:+ xmlHeaderBytes) None) _ eq_refl Hm)
    as [p [He Hp]].
  rewrite He, Hp. simpl. now rewrite append_assoc.
Qed.
End XmlDataFacts.

Section MoreExamples.
#[local] Existing Instance Ref.lib.

Lemma headers_untouched_by_other_calls_witness :
  forallb (fun c => negb (touchesHeaders c)) Ref.chainQuiet = true /\
  ctx (calls Ref.replyWithHeader Ref.chainQuiet) = ctx Ref.replyWithHeader.
Proof.
  assert (Hq : forallb (fun c => negb (touchesHeaders c)) Ref.chainQuiet = true)
    by reflexivity.
  split; [exact Hq|].
  exact (@headers_untouched_by_other_calls Ref.lib Ref.replyWithHeader
           Ref.chainQuiet Hq).
Defined.

Lemma Header_set_delete_append_witness :
  "x-request-id" <> HeaderContentType /\
  Res_Header (ctx (Reply_Header Ref.replyWithHeader "x-request-id" "42"))
    !! "X-Request-Id" = Some ["42"] /\
  Res_Header (ctx (Reply_Header Ref.replyWithHeader "x-frame-options" ""))
    !! "X-Frame-Options" = None /\
  Res_Header (ctx (Reply_HeaderAppend Ref.replyWithHeader "x-frame-options" "x"))
    !! "X-Frame-Options" = Some ["DENY"; "x"] /\
  Res_Header (ctx (Reply_Header Ref.replyWithHeader "x-request-id" "42"))
    !! "X-Frame-Options" = Some ["DENY"].
Proof.
  assert (Hk : "x-request-id" <> HeaderContentType) by discriminate.
  assert (Hk' : "x-frame-options" <> HeaderContentType) by discriminate.
  destruct (@Header_set_delete_append Ref.lib Ref.replyWithHeader
              "x-request-id" "42" "X-Frame-Options" Hk) as (Hset & _ & _ & Hoth).
  destruct (@Header_set_delete_append Ref.lib Ref.replyWithHeader
              "x-frame-options" "x" "Accept" Hk') as (_ & Hdel & Happ & _).
  split; [exact Hk|]. split; [apply Hset; discriminate|].
  split; [exact Hdel|]. split; [exact Happ|].
  destruct Hoth as [Hoth _]; [discriminate|]. exact Hoth.
Defined.

Lemma Header_later_call_wins_witness :
  CanonicalMIMEHeaderKey "x-api-key" = CanonicalMIMEHeaderKey "X-API-KEY" /\
  Reply_Header (Reply_Header Ref.reply "x-api-key" "old") "X-API-KEY" "new"
    = Reply_Header Ref.reply "X-API-KEY" "new".
Proof.
  assert (Hc : CanonicalMIMEHeaderKey "x-api-key"
               = CanonicalMIMEHeaderKey "X-API-KEY") by reflexivity.
  split; [exact Hc|].
  apply (@Header_later_call_wins Ref.lib Ref.reply "x-api-key" "X-API-KEY"
           "old" "new"); [discriminate | discriminate | exact Hc].
Defined.

Lemma Header_other_spelling_of_reserved_key_witness :
  CanonicalMIMEHeaderKey "content-type" = HeaderContentType /\
  ContType (Reply_Header Ref.reply "content-type" "text/css") = "" /\
  Reply_IsContentTypeSet (Reply_Header Ref.reply "content-type" "text/css")
    = false /\
  Res_Header (ctx (Reply_Header Ref.reply "content-type" "text/css"))
    !! "Content-Type" = Some ["text/css"].
Proof.
  assert (Hc : CanonicalMIMEHeaderKey "content-type" = HeaderContentType)
    by reflexivity.
  destruct (@Header_other_spelling_of_reserved_key Ref.lib Ref.reply
              "content-type" "text/css") as (Hct & Hset & Hraw);
    [discriminate | exact Hc | discriminate |].
  split; [exact Hc|]. split; [exact Hct|]. split; [exact Hset | exact Hraw].
Defined.

Lemma ContentType_ascii_case_folded_witness :
  ContType (Reply_ContentType Ref.reply "Text/HTML; Charset=UTF-8")
    = "text/html; charset=utf-8" /\
  Reply_ContentType Ref.reply (strings_ToLower "Text/HTML; Charset=UTF-8")
    = Reply_ContentType Ref.reply "Text/HTML; Charset=UTF-8".
Proof.
  destruct (@ContentType_ascii_case_folded Ref.lib Ref.reply
              "Text/HTML; Charset=UTF-8" eq_refl eq_refl) as (_ & _ & Hsame).
  split; [reflexivity | exact Hsame].
Defined.

Lemma secureJSONRender_prefix_first_witness :
  secureJSONRender_Render ")]}'," Ref.payload_a1 Ref.sink
    = (mkWriter (")]}'," +:+ Ref.json_a1 +:+ Ref.newline) None, None) /\
  secureJSONRender_Render ")]}'," Ref.payload_a1 (mkWriter "" (Some (2%nat, errorString "sink is full")))
    = (mkWriter ")]" (Some (O, errorString "sink is full")),
       Some (errorString "sink is full")).
Proof.
  destruct (@secureJSONRender_prefix_first Ref.lib ")]}'," Ref.payload_a1
              Ref.sink) as (Hok & _ & _).
  destruct (@secureJSONRender_prefix_first Ref.lib ")]}'," Ref.payload_a1
              (mkWriter "" (Some (2%nat, errorString "sink is full"))))
    as (_ & _ & Hfail).
  split.
  - exact (Hok Ref.json_a1 eq_refl eq_refl).
  - apply Hfail. reflexivity.
Defined.

Lemma jsonRender_is_jsonp_plus_newline_witness :
  jsonRender_Render Ref.payload_a1 Ref.sink
    = (mkWriter (Ref.json_a1 +:+ Ref.newline) None, None) /\
  written (fst (jsonpRender_Render "" Ref.payload_a1 Ref.sink)) = Ref.json_a1.
Proof.
  destruct (@jsonRender_is_jsonp_plus_newline Ref.lib Ref.payload_a1 Ref.sink)
    as [Hok _].
  destruct (Hok Ref.json_a1 eq_refl eq_refl) as [Hjson _].
  split; [exact Hjson | reflexivity].
Defined.

Lemma binaryRender_regular_file_witness :
  binaryRender_Render Ref.fs "/srv/app/hello.txt" None Ref.sink
    = (mkWriter "hello" None, None).
Proof.
  destruct (binaryRender_regular_file Ref.fs "/srv/app/hello.txt" Ref.sink)
    as [Hfile _].
  exact (Hfile _ _ eq_refl eq_refl eq_refl eq_refl).
Defined.



Lemma Ref_name_titles :
  forall kv, kv ∈ Ref.range Ref.data_name -> strings_Title (fst kv) <> "".
Proof.
  intros kv Hin.
  assert (Hl : Ref.range Ref.data_name = [("name", Ref.VString "x")])
    by (vm_compute; reflexivity).
  rewrite Hl in Hin. apply list_elem_of_singleton in Hin. subst kv.
  vm_compute. discriminate.
Qed.

Lemma xml_Data_marshals_to_elements_witness :
  any_Data Ref.payload_name = Some Ref.data_name /\
  xml_Marshal Ref.range Ref.payload_name = inr "<Data><Name>x</Name></Data>" /\
  xmlRender_Render Ref.range Ref.payload_name Ref.sink
    = (mkWriter (xml_Header +:+ "<Data><Name>x</Name></Data>") None, None).
Proof.
  destruct (@xml_Data_marshals_to_elements Ref.lib Ref.range Ref.payload_name
              Ref.data_name Ref.sink eq_refl Ref_name_titles) as [Hm Hr].
  split; [reflexivity|]. split.
  - rewrite Hm. vm_compute. reflexivity.
  - rewrite (Hr eq_refl). vm_compute. reflexivity.
Defined.
End MoreExamples.

(** ** The gzip flag and the content type over a chain *)

Section ChainFacts2.
Context `{GoLib}.

Ltac builder_cases :=
  simpl; autounfold with builder; unfold Reply_ContentType;
  repeat match goal with
    | |- context [if ?b then _ else _] => destruct b
    | |- context [match cookies ?x with _ => _ end] => destruct (cookies x)
    end.

Lemma call_gzip_assigned (r : Reply) (c : Call) :
  gzip (call r c) = default (gzip r) (gzipOf (BaseDir (ctx r)) c).
Proof.
  destruct c; simpl; unfold resolveAgainst;
    try (destruct (filepath_IsAbs file)); builder_cases; reflexivity.
Qed.

(** X21: the gzip flag after a chain of builder calls is the one assigned
    by the chain's last [DisableGzip] (false) or [File], [FileDownload] or
    [FileInline] call (the heuristic's answer for the path resolved against
    the base directory); no other call changes it. *)
Theorem gzip_last_assignment_wins (r : Reply) (cs : list Call) :
  gzip (calls r cs)
  = default (gzip r) (last (omap (gzipOf (BaseDir (ctx r))) cs)).
Proof.
  apply (calls_last_write gzip (gzipOf (BaseDir (ctx r)))
           (fun r' => BaseDir (ctx r') = BaseDir (ctx r))); [|reflexivity].
  intros r' c Hb. destruct (call_settings r' c) as (Hb' & _ & _).
  split; [congruence|]. now rewrite call_gzip_assigned, Hb.
Qed.

Lemma call_ContType_offered (r : Reply) (c : Call) :
  ContType (call r c)
  = if String.eqb (ContType r) "" then default "" (offeredType c) else ContType r.
Proof.
  destruct (String.eqb (ContType r) "") eqn:Hr.
  - apply String.eqb_eq in Hr.
    destruct c; simpl; autounfold with builder;
      repeat match goal with
        | |- context [if String.eqb ?k HeaderContentType then _ else _] =>
            destruct (String.eqb k HeaderContentType)
        | |- context [if (String.length ?v =? 0)%nat then _ else _] =>
            destruct (String.length v =? 0)%nat eqn:?
        | |- context [match cookies ?x with _ => _ end] => destruct (cookies x)
        end;
      rewrite ?ContentType_unset by assumption; simpl; try exact Hr;
      try reflexivity.
    match goal with Hv : (String.length ?v =? 0)%nat = true |- _ =>
      apply length_zero_eq in Hv; subst v end.
    reflexivity.
  - apply String.eqb_neq in Hr. now apply call_ContType.
Qed.

(** X22: the content type after a chain of builder calls is the first
    non-empty one among the content type the builder had and the
    lower-cased content types the calls offered in order: the argument of
    [ContentType], the MIME string of a typed builder call, the value of
    [Header] or [HeaderAppend] with the reserved key. *)
Theorem ContType_first_offer_wins (r : Reply) (cs : list Call) :
  ContType (calls r cs) = firstNonEmpty (ContType r :: omap offeredType cs).
Proof.
  revert r. induction cs as [|c cs IH]; intros r.
  - simpl. destruct (String.eqb (ContType r) "") eqn:Hr; [|reflexivity].
    now apply String.eqb_eq in Hr.
  - change (calls r (c :: cs)) with (calls (call r c) cs).
    rewrite IH, call_ContType_offered.
    change (omap offeredType (c :: cs))
      with (match offeredType c with
            | Some y => y :: omap offeredType cs
            | None => omap offeredType cs
            end).
    cbn [firstNonEmpty].
    destruct (String.eqb (ContType r) "") eqn:Hr.
    + destruct (offeredType c) as [s|]; reflexivity.
    + rewrite Hr. reflexivity.
Qed.
End ChainFacts2.
